(** * ChatLLMService: a shallow embedding of
      backend/api/quivr_api/modules/chat_llm_service/chat_llm_service.py

    The service is modelled as state-passing code over a [World] that holds
    the usage ledger, the stored chat history and an observation log.  Python
    exceptions are an error result; a raise keeps the state reached so far
    (nothing is rolled back), so that "nothing was written before the raise"
    is a property to prove and not one of the encoding.  The async generator
    [generate_answer_stream] is a resumable state machine: one [anext] runs
    the body up to its next [yield]. *)

From Stdlib Require Import String List ZArith Bool Arith Lia.
Import ListNotations.
Open Scope string_scope.

(** ** Data model *)

(** A UUID in its canonical textual form; Python's [str()] on it is then the
    identity. *)
Definition UUID := string.
Definition str (u : UUID) : string := u.

(** [datetime.datetime] values, as ticks of the world clock. *)
Definition datetime := nat.

Inductive Exn :=
| ModelNotAllowed
| QuotaExceeded
| InvocationError
| PersistenceError
| AttributeError        (* attribute access on [None] *)
| UnboundLocalError.    (* read of a local that was never assigned *)

Inductive result (A : Type) :=
| Ok (a : A)
| Raise (e : Exn).
Arguments Ok {A} a.
Arguments Raise {A} e.

Record UserIdentity := { user_id : UUID; user_email : string }.

(** [user_settings]: the quota settings read for a user. *)
Record UserSettings := { monthly_chat_credit : Z }.

(** A model entity: what [self.model_to_use] and [model_metadata] are read
    from ([name], [max_input], [max_output]; [description], [image_url],
    [display_name]). *)
Record Model := {
  model_name : string;
  model_price : Z;
  model_max_input : Z;
  model_max_output : Z;
  model_description : string;
  model_image_url : string;
  model_display_name : string
}.

(** quivr_core.models.ChatLLMMetadata *)
Record ChatLLMMetadata := {
  cm_name : string;
  cm_description : option string;
  cm_image_url : option string;
  cm_display_name : option string;
  cm_brain_id : option string;
  cm_brain_name : option string
}.

(** quivr_core.models.RAGResponseMetadata: the provider-supplied fields
    (sources and the like, kept as field/value pairs) and the descriptive
    model block. *)
Record RAGResponseMetadata := {
  provider_fields : list (string * string);
  metadata_model : option ChatLLMMetadata
}.

Definition set_metadata_model (m : RAGResponseMetadata) (cm : ChatLLMMetadata)
  : RAGResponseMetadata :=
  {| provider_fields := provider_fields m; metadata_model := Some cm |}.

(** quivr_core.models.ParsedRAGResponse *)
Record ParsedRAGResponse := {
  answer : string;
  metadata : option RAGResponseMetadata
}.

(** quivr_core.models.ParsedRAGChunkResponse, the items of [answer_astream] *)
Record ParsedRAGChunkResponse := {
  chunk_answer : string;
  chunk_metadata : RAGResponseMetadata;
  last_chunk : bool
}.

(** A metadata [dict]: [{}] or the [model_dump()] of a metadata object. *)
Inductive MetadataDict :=
| EmptyDict
| ModelDump (m : RAGResponseMetadata).

(** quivr_api.modules.chat.dto.inputs.CreateChatHistory *)
Record CreateChatHistory := {
  cch_chat_id : UUID;
  cch_user_message : string;
  cch_assistant : string;
  cch_brain_id : option UUID;
  cch_prompt_id : option UUID;
  cch_metadata : MetadataDict
}.

(** A stored turn: the entry [update_chat_history] returns. *)
Record ChatHistory := {
  ch_chat_id : UUID;
  ch_message_id : UUID;
  ch_user_message : string;
  ch_assistant : string;
  ch_message_time : datetime;
  ch_brain_id : option UUID;
  ch_prompt_id : option UUID;
  ch_metadata : MetadataDict
}.

(** quivr_api.modules.chat.dto.outputs.GetChatHistoryOutput *)
Record GetChatHistoryOutput := {
  chat_id : UUID;
  message_id : UUID;
  user_message : string;
  assistant : string;
  message_time : datetime;
  prompt_title : option string;
  brain_name : option string;
  brain_id : option UUID;
  out_metadata : MetadataDict
}.

(** The [message_metadata] dict of [generate_answer_stream] (lines 195-203):
    the keyword arguments shared by every record of one stream. *)
Record MessageMetadata := {
  mm_chat_id : UUID;
  mm_message_id : UUID;
  mm_user_message : string;
  mm_message_time : datetime;
  mm_prompt_title : option string;
  mm_brain_name : option string;
  mm_brain_id : option UUID
}.

(** [GetChatHistoryOutput(assistant=a, metadata=md, **message_metadata)] *)
Definition GetChatHistoryOutput_of (a : string) (md : MetadataDict)
           (mm : MessageMetadata) : GetChatHistoryOutput :=
  {| chat_id := mm_chat_id mm;
     message_id := mm_message_id mm;
     user_message := mm_user_message mm;
     assistant := a;
     message_time := mm_message_time mm;
     prompt_title := mm_prompt_title mm;
     brain_name := mm_brain_name mm;
     brain_id := mm_brain_id mm;
     out_metadata := md |}.

(** [streamed_chat_history.metadata = d] *)
Definition with_metadata (o : GetChatHistoryOutput) (d : MetadataDict)
  : GetChatHistoryOutput :=
  {| chat_id := chat_id o;
     message_id := message_id o;
     user_message := user_message o;
     assistant := assistant o;
     message_time := message_time o;
     prompt_title := prompt_title o;
     brain_name := brain_name o;
     brain_id := brain_id o;
     out_metadata := d |}.

(** One yielded event line, [f"data: {record.model_dump_json()}"]: the literal
    prefix and the record that pydantic serialises. *)
Inductive SSE := Data (record : GetChatHistoryOutput).

Definition sse_record (s : SSE) : GetChatHistoryOutput :=
  match s with Data r => r end.

(** quivr_core.config.LLMEndpointConfig, the fields [build_llm] sets. *)
Record LLMEndpointConfig := {
  cfg_model : string;
  cfg_llm_base_url : option string;
  cfg_llm_api_key : option string;
  cfg_temperature : string;
  cfg_max_input : Z;
  cfg_max_tokens : Z
}.

(** [ChatLLM(llm=LLMEndpoint.from_config(cfg))] *)
Record ChatLLM := { llm_config : LLMEndpointConfig }.

(** quivr_core.chat.ChatHistory *)
Record ChatHistoryCore := {
  core_brain_id : option UUID;
  core_chat_id : UUID;
  core_msgs : list (string * string)
}.

(** The provider's lazy sequence of chunks: it ends normally, or production
    raises. *)
Inductive AStream :=
| Stop
| Fail (e : Exn)
| Next (c : ParsedRAGChunkResponse) (s : AStream).

Fixpoint chunks_then (cs : list ParsedRAGChunkResponse) (tl : AStream) : AStream :=
  match cs with
  | [] => tl
  | c :: cs' => Next c (chunks_then cs' tl)
  end.

Fixpoint stream_length (s : AStream) : nat :=
  match s with
  | Next _ s' => S (stream_length s')
  | _ => 0
  end.

(** ** The world and the observation log *)

Inductive Event :=
| EvResolve (user : UUID) (name : string)    (* check_and_update_user_usage entered *)
| EvRecordUsage (user : UUID) (cost : Z)     (* the ledger write *)
| EvModelCall (question : string)            (* chat_llm.answer / answer_astream *)
| EvPersist (c : CreateChatHistory)          (* chat_service.update_chat_history *)
| EvYield (s : SSE).                         (* a record handed to the consumer *)

Record World := {
  ledger : list (UUID * Z);
  history : list ChatHistory;
  clock : nat;
  rng : nat;
  log : list Event
}.

Definition M (A : Type) := World -> result A * World.

Definition ret {A} (a : A) : M A := fun w => (Ok a, w).
Definition raise {A} (e : Exn) : M A := fun w => (Raise e, w).
Definition bind {A B} (c : M A) (k : A -> M B) : M B :=
  fun w => match c w with
           | (Ok a, w') => k a w'
           | (Raise e, w') => (Raise e, w')
           end.

Notation "x <- c ;; k" := (bind c (fun x => k))
  (at level 61, c at next level, right associativity).
Notation "c ;;; k" := (bind c (fun _ => k))
  (at level 61, right associativity).

Definition lift {A} (r : result A) : M A := fun w => (r, w).

Definition log_append (w : World) (evs : list Event) : World :=
  {| ledger := ledger w; history := history w;
     clock := clock w; rng := rng w;
     log := log w ++ evs |}.

Definition emit (e : Event) : M unit :=
  fun w => (Ok tt, log_append w [e]).

(** [datetime.datetime.now()] *)
Definition now : M datetime :=
  fun w => (Ok (clock w), {| ledger := ledger w; history := history w;
                             clock := S (clock w); rng := rng w;
                             log := log w |}).

(** The collaborators the service is handed or imports, as far as their
    results go: settings, the user-usage reads, the pricing formula, the
    model service, the history formatter, the LLM endpoint, the UUID source
    and the storage engine's availability. *)
Record Collaborators := {
  ollama_api_base_url : option string;
  temperature_default : string;
  get_user_settings : UserIdentity -> UserSettings;
  get_models : UserIdentity -> list Model;
  compute_cost : Model -> list Model -> Z;
  get_model : string -> option Model;
  format_chat_history : list GetChatHistoryOutput -> list (string * string);
  llm_answer : ChatLLM -> string -> ChatHistoryCore -> result ParsedRAGResponse;
  llm_answer_astream : ChatLLM -> string -> ChatHistoryCore -> AStream;
  uuid_source : nat -> UUID;
  storage_fails : list ChatHistory -> CreateChatHistory -> bool
}.

(** The instance state [__init__] sets ([chat_service] and [model_service]
    are the collaborators above). *)
Record ChatLLMService := {
  current_user : UserIdentity;
  svc_chat_id : UUID;
  model_to_use : Model
}.

(** Python truthiness of an optional string. *)
Definition truthy (s : option string) : bool :=
  match s with
  | Some s => negb (s =? "")
  | None => false
  end.

(** The 30-day usage the ledger holds for a user. *)
Fixpoint usage_of (u : UUID) (l : list (UUID * Z)) : Z :=
  match l with
  | [] => 0
  | (u', c) :: l' => ((if (u' =? u)%string then c else 0) + usage_of u l')%Z
  end.

(** Modelled from the spec: [find_model_and_generate_metadata]
    (quivr_api/modules/chat/controller/chat/utils.py is not among the
    sources).  Section 4.1: "Fails with ModelNotAllowed if model_name is
    absent from the allow-list"; section 8: on success the selection matches
    the requested model name.  The allow-list is the set of model descriptors
    [get_models] returns (section 6). *)
Definition find_model_and_generate_metadata (name : string)
           (user_settings : UserSettings) (all_models : list Model)
  : result Model :=
  match find (fun m => model_name m =? name) all_models with
  | Some m => Ok m
  | None => Raise ModelNotAllowed
  end.

(** Modelled from the spec: [update_user_usage] (same missing module).
    Section 4.1: "Fails with QuotaExceeded if projected 30-day rolling usage
    plus this cost would exceed the user's monthly credit/usage ceiling";
    "on success, atomically records the incremental cost against the user's
    ledger". *)
Definition update_user_usage (user_usage : UserIdentity)
           (user_settings : UserSettings) (cost : Z) : M unit :=
  fun w =>
    if (usage_of (user_id user_usage) (ledger w) + cost
        >? monthly_chat_credit user_settings)%Z
    then (Raise QuotaExceeded, w)
    else (Ok tt,
          {| ledger := ledger w ++ [(user_id user_usage, cost)];
             history := history w; clock := clock w; rng := rng w;
             log := log w ++ [EvRecordUsage (user_id user_usage) cost] |}).

Definition to_output (t : ChatHistory) : GetChatHistoryOutput :=
  {| chat_id := ch_chat_id t;
     message_id := ch_message_id t;
     user_message := ch_user_message t;
     assistant := ch_assistant t;
     message_time := ch_message_time t;
     prompt_title := None;
     brain_name := None;
     brain_id := ch_brain_id t;
     out_metadata := ch_metadata t |}.

(** Modelled from the spec: [ChatService.get_chat_history]
    (quivr_api/modules/chat/service/chat_service.py is not among the
    sources).  Section 6: "get_turns(session id) -> ordered sequence of
    Turn". *)
Definition get_chat_history (cid : UUID) : M (list GetChatHistoryOutput) :=
  fun w => (Ok (map to_output
                    (filter (fun t => ch_chat_id t =? cid) (history w))), w).

Section Service.

(** Modelled from the spec: [generate_uuid_from_string]
    (quivr_api/packages/utils/uuid_generator.py is not among the sources).
    Section 4.5: "a stable deterministic hash over the model name,
    independent of process, time, or call order", that is, a function of its
    argument. *)
Variable generate_uuid_from_string : string -> UUID.

Variable env : Collaborators.

(** [uuid4()] *)
Definition uuid4 : M UUID :=
  fun w => (Ok (uuid_source env (rng w)),
            {| ledger := ledger w; history := history w; clock := clock w;
               rng := S (rng w); log := log w |}).

(** Modelled from the spec: [ChatService.update_chat_history] (same missing
    module as [get_chat_history]).  Section 4.6: "Generates a new turn id and
    timestamp, performs a durable append to the session's turn history.
    Fails with PersistenceError". *)
Definition update_chat_history (c : CreateChatHistory) : M ChatHistory :=
  emit (EvPersist c) ;;;
  fun w =>
    if storage_fails env (history w) c then (Raise PersistenceError, w)
    else
      (mid <- uuid4 ;;
       t <- now ;;
       let entry :=
         {| ch_chat_id := cch_chat_id c;
            ch_message_id := mid;
            ch_user_message := cch_user_message c;
            ch_assistant := cch_assistant c;
            ch_message_time := t;
            ch_brain_id := cch_brain_id c;
            ch_prompt_id := cch_prompt_id c;
            ch_metadata := cch_metadata c |} in
       fun w' =>
         (Ok entry,
          {| ledger := ledger w'; history := history w' ++ [entry];
             clock := clock w'; rng := rng w'; log := log w' |})) w.

(** Lines 85-108. *)
Definition check_and_update_user_usage (user : UserIdentity) (name : string)
  : M Model :=
  emit (EvResolve (user_id user) name) ;;;
  let user_usage := user in
  let user_settings := get_user_settings env user_usage in
  let all_models := get_models env user_usage in
  model_to_use <- lift (find_model_and_generate_metadata
                          name user_settings all_models) ;;
  let cost := compute_cost env model_to_use all_models in
  update_user_usage user_usage user_settings cost ;;;
  ret model_to_use.

(** Lines 32-51. *)
Definition __init__ (current_user : UserIdentity) (name : string)
           (chat_id : UUID) : M ChatLLMService :=
  model_to_use <- check_and_update_user_usage current_user name ;;
  ret {| current_user := current_user;
         svc_chat_id := chat_id;
         model_to_use := model_to_use |}.

(** Lines 53-61. *)
Definition _build_chat_history (self : ChatLLMService)
           (history : list GetChatHistoryOutput) : ChatHistoryCore :=
  let transformed_history := format_chat_history env history in
  {| core_brain_id := None;
     core_chat_id := svc_chat_id self;
     core_msgs := transformed_history |}.

(** Lines 63-83. *)
Definition build_llm (self : ChatLLMService) : ChatLLM :=
  let ollama_url :=
    if truthy (ollama_api_base_url env)
       && String.prefix "ollama" (model_name (model_to_use self))
    then ollama_api_base_url env
    else None in
  {| llm_config :=
       {| cfg_model := model_name (model_to_use self);
          cfg_llm_base_url := ollama_url;
          cfg_llm_api_key := if truthy ollama_url then Some "abc-123" else None;
          cfg_temperature := temperature_default env;
          cfg_max_input := model_max_input (model_to_use self);
          cfg_max_tokens := model_max_output (model_to_use self) |} |}.

(** Lines 110-126. *)
Definition save_answer (self : ChatLLMService) (question : string)
           (parsed : ParsedRAGResponse) : M ChatHistory :=
  update_chat_history
    {| cch_chat_id := svc_chat_id self;
       cch_user_message := question;
       cch_assistant := answer parsed;
       cch_brain_id := None;
       cch_prompt_id := None;
       cch_metadata := match metadata parsed with
                       | Some m => ModelDump m
                       | None => EmptyDict
                       end |}.

(** The [ChatLLMMetadata(...)] block built at lines 145-152 and 226-233,
    reading three attributes of [model_metadata]. *)
Definition ChatLLMMetadata_of (self : ChatLLMService) (model_metadata : Model)
  : ChatLLMMetadata :=
  {| cm_name := model_name (model_to_use self);
     cm_description := Some (model_description model_metadata);
     cm_image_url := Some (model_image_url model_metadata);
     cm_display_name := Some (model_display_name model_metadata);
     cm_brain_id :=
       Some (str (generate_uuid_from_string (model_name (model_to_use self))));
     cm_brain_name := Some (model_name (model_to_use self)) |}.

Definition chat_llm_metadata (self : ChatLLMService)
           (model_metadata : option Model) : result ChatLLMMetadata :=
  match model_metadata with
  | None => Raise AttributeError
  | Some md => Ok (ChatLLMMetadata_of self md)
  end.

(** [chat_llm.answer(question, chat_history)] *)
Definition chat_llm_answer (chat_llm : ChatLLM) (question : string)
           (chat_history : ChatHistoryCore) : M ParsedRAGResponse :=
  emit (EvModelCall question) ;;;
  lift (llm_answer env chat_llm question chat_history).

(** Lines 128-174. *)
Definition generate_answer (self : ChatLLMService) (question : string)
  : M GetChatHistoryOutput :=
  let chat_llm := build_llm self in
  history <- get_chat_history (svc_chat_id self) ;;
  let model_metadata := get_model env (model_name (model_to_use self)) in
  let chat_history := _build_chat_history self history in
  parsed_response <- chat_llm_answer chat_llm question chat_history ;;
  parsed_response <-
    match metadata parsed_response with
    | Some md =>
        cm <- lift (chat_llm_metadata self model_metadata) ;;
        ret {| answer := answer parsed_response;
               metadata := Some (set_metadata_model md cm) |}
    | None => ret parsed_response
    end ;;
  new_chat_entry <- save_answer self question parsed_response ;;
  ret {| chat_id := svc_chat_id self;
         user_message := question;
         assistant := answer parsed_response;
         message_time := ch_message_time new_chat_entry;
         prompt_title := None;
         brain_name := None;
         message_id := ch_message_id new_chat_entry;
         brain_id := None;
         out_metadata := match metadata parsed_response with
                         | Some m => ModelDump m
                         | None => EmptyDict
                         end |}.

(** *** [generate_answer_stream] (lines 176-244) as a resumable generator *)

(** The locals alive while the generator is suspended at the [yield] of
    line 214. *)
Record Frame := {
  fr_question : string;
  fr_model_metadata : option Model;
  fr_message_metadata : MessageMetadata;
  fr_full_answer : string;
  fr_response : ParsedRAGChunkResponse;
  fr_stream : AStream
}.

Inductive Generator :=
| Created (question : string)    (* not started *)
| AtLoopYield (f : Frame)        (* suspended at line 214 *)
| AtFinalYield                   (* suspended at line 244 *)
| Finished.                      (* returned, raised or closed *)

Inductive Outcome :=
| Yielded (s : SSE)
| StopAsyncIteration
| Raised (e : Exn).

(** Line 225: [RAGResponseMetadata] rebuilt from the keyword arguments of
    a metadata dict. *)
Definition RAGResponseMetadata_of_dict (d : MetadataDict) : RAGResponseMetadata :=
  match d with
  | ModelDump m => m
  | EmptyDict => {| provider_fields := []; metadata_model := None |}
  end.

(** Lines 215-216. *)
Definition absorb_last_chunk (full_answer : string)
           (response : ParsedRAGChunkResponse) : string :=
  if last_chunk response && (full_answer =? "")
  then full_answer ++ chunk_answer response
  else full_answer.

Section Body.

Variable self : ChatLLMService.
Variable question : string.
Variable model_metadata : option Model.
Variable message_metadata : MessageMetadata.

(** Lines 218-244, the code after the loop.  [response] is the loop variable:
    [None] while no iteration has bound it. *)
Definition finalize (full_answer : string)
           (response : option ParsedRAGChunkResponse) : M (SSE * Generator) :=
  match response with
  | None => raise UnboundLocalError
  | Some response =>
      let streamed_chat_history :=
        GetChatHistoryOutput_of full_answer
          (ModelDump (chunk_metadata response)) message_metadata in
      let metadata :=
        RAGResponseMetadata_of_dict (out_metadata streamed_chat_history) in
      cm <- lift (chat_llm_metadata self model_metadata) ;;
      let metadata := set_metadata_model metadata cm in
      let streamed_chat_history :=
        with_metadata streamed_chat_history (ModelDump metadata) in
      save_answer self question
        {| answer := full_answer; metadata := Some metadata |} ;;;
      emit (EvYield (Data streamed_chat_history)) ;;;
      ret (Data streamed_chat_history, AtFinalYield)
  end.

(** Lines 205-216: the [async for], run from the head of the loop up to the
    next [yield], or through the code after the loop when the provider's
    sequence ends. *)
Fixpoint iterate (full_answer : string)
         (response : option ParsedRAGChunkResponse) (s : AStream)
  : M (SSE * Generator) :=
  match s with
  | Stop => finalize full_answer response
  | Fail e => raise e
  | Next response s' =>
      if negb (last_chunk response) then
        let streamed_chat_history :=
          GetChatHistoryOutput_of (chunk_answer response)
            (ModelDump (chunk_metadata response)) message_metadata in
        let full_answer := full_answer ++ chunk_answer response in
        emit (EvYield (Data streamed_chat_history)) ;;;
        ret (Data streamed_chat_history,
             AtLoopYield {| fr_question := question;
                            fr_model_metadata := model_metadata;
                            fr_message_metadata := message_metadata;
                            fr_full_answer := full_answer;
                            fr_response := response;
                            fr_stream := s' |})
      else
        iterate (absorb_last_chunk full_answer response) (Some response) s'
  end.

End Body.

(** Lines 180-205: from the call up to the loop. *)
Definition start (self : ChatLLMService) (question : string)
  : M (SSE * Generator) :=
  let chat_llm := build_llm self in
  let model_metadata := get_model env (model_name (model_to_use self)) in
  history <- get_chat_history (svc_chat_id self) ;;
  let chat_history := _build_chat_history self history in
  let full_answer := "" in
  mid <- uuid4 ;;
  t <- now ;;
  let message_metadata :=
    {| mm_chat_id := svc_chat_id self;
       mm_message_id := mid;
       mm_user_message := question;
       mm_message_time := t;
       mm_prompt_title := None;
       mm_brain_name := None;
       mm_brain_id := None |} in
  emit (EvModelCall question) ;;;
  iterate self question model_metadata message_metadata full_answer None
          (llm_answer_astream env chat_llm question chat_history).

(** Resuming after the [yield] of line 214: line 215 is evaluated for the
    chunk just emitted, then the loop goes on. *)
Definition resume (self : ChatLLMService) (f : Frame) : M (SSE * Generator) :=
  iterate self (fr_question f) (fr_model_metadata f) (fr_message_metadata f)
          (absorb_last_chunk (fr_full_answer f) (fr_response f))
          (Some (fr_response f)) (fr_stream f).

Definition run_body (c : M (SSE * Generator)) (w : World)
  : Outcome * Generator * World :=
  match c w with
  | (Ok (y, g), w') => (Yielded y, g, w')
  | (Raise e, w') => (Raised e, Finished, w')
  end.

(** One [__anext__] on the generator. *)
Definition anext (self : ChatLLMService) (g : Generator) (w : World)
  : Outcome * Generator * World :=
  match g with
  | Created question => run_body (start self question) w
  | AtLoopYield f => run_body (resume self f) w
  | AtFinalYield => (StopAsyncIteration, Finished, w)
  | Finished => (StopAsyncIteration, Finished, w)
  end.

(** [aclose()] or garbage collection of a suspended generator:
    [GeneratorExit] is raised at the [yield]; the body has no [try], so
    nothing else runs. *)
Definition aclose (g : Generator) (w : World) : Generator * World :=
  (Finished, w).

Definition generate_answer_stream (self : ChatLLMService) (question : string)
  : Generator := Created question.

(** What a consumer that takes records does with the outcome of one
    [anext]: it keeps a yielded record and goes on with [k], and stops at the
    end of the iteration or at a raise. *)
Definition take_outcome (k : Generator -> World -> list SSE * Generator * World)
           (o : Outcome * Generator * World) : list SSE * Generator * World :=
  match o with
  | (Yielded y, g', w') =>
      let '(ys, g'', w'') := k g' w' in (y :: ys, g'', w'')
  | (_, g', w') => ([], g', w')
  end.

(** A consumer that takes at most [k] records. *)
Fixpoint pull (self : ChatLLMService) (k : nat) (g : Generator) (w : World)
  : list SSE * Generator * World :=
  match k with
  | 0 => ([], g, w)
  | S k' => take_outcome (pull self k') (anext self g w)
  end.

Definition on_outcome
           (k : Generator -> World -> option (list SSE * result unit * World))
           (o : Outcome * Generator * World)
  : option (list SSE * result unit * World) :=
  match o with
  | (Yielded y, g', w') =>
      match k g' w' with
      | Some (ys, r, w'') => Some (y :: ys, r, w'')
      | None => None
      end
  | (StopAsyncIteration, _, w') => Some ([], Ok tt, w')
  | (Raised e, _, w') => Some ([], Raise e, w')
  end.

(** [async for record in gen]: the consumer that runs the generator to its
    end.  [None] only when the fuel runs out first. *)
Fixpoint drain (self : ChatLLMService) (fuel : nat) (g : Generator) (w : World)
  : option (list SSE * result unit * World) :=
  match fuel with
  | 0 => None
  | S fuel' => on_outcome (drain self fuel') (anext self g w)
  end.

(** *** Callers of one instance *)

(** What a caller does with an instance: a [generate_answer] call, or a
    [generate_answer_stream] call of which it takes at most [pulls] records
    before dropping the generator. *)
Inductive Op :=
| CallGenerate (question : string)
| CallStream (question : string) (pulls : nat).

Definition run_op (self : ChatLLMService) (op : Op) (w : World) : World :=
  match op with
  | CallGenerate question => snd (generate_answer self question w)
  | CallStream question pulls =>
      let '(_, g, w') := pull self pulls (generate_answer_stream self question) w in
      snd (aclose g w')
  end.

Fixpoint run_ops (self : ChatLLMService) (ops : list Op) (w : World) : World :=
  match ops with
  | [] => w
  | op :: ops' => run_ops self ops' (run_op self op w)
  end.

(** *** Values the statements below speak about *)

(** The context handed to the LLM in world [w] (lines 136-139, 189-191). *)
Definition chat_history_at (self : ChatLLMService) (w : World) : ChatHistoryCore :=
  _build_chat_history self
    (map to_output
         (filter (fun t => ch_chat_id t =? svc_chat_id self) (history w))).

(** The chunk sequence [answer_astream] produces for a call made in [w]. *)
Definition provider_stream (self : ChatLLMService) (question : string)
           (w : World) : AStream :=
  llm_answer_astream env (build_llm self) question (chat_history_at self w).

(** The [message_metadata] of a stream started in [w] (lines 195-203). *)
Definition message_metadata_at (self : ChatLLMService) (question : string)
           (w : World) : MessageMetadata :=
  {| mm_chat_id := svc_chat_id self;
     mm_message_id := uuid_source env (rng w);
     mm_user_message := question;
     mm_message_time := clock w;
     mm_prompt_title := None;
     mm_brain_name := None;
     mm_brain_id := None |}.

(** The record of lines 208-212 for chunk [c]. *)
Definition partial_record (mm : MessageMetadata) (c : ParsedRAGChunkResponse)
  : GetChatHistoryOutput :=
  GetChatHistoryOutput_of (chunk_answer c) (ModelDump (chunk_metadata c)) mm.

(** The metadata of lines 225-233 for last response [r]. *)
Definition final_metadata (self : ChatLLMService) (md : Model)
           (r : ParsedRAGChunkResponse) : RAGResponseMetadata :=
  set_metadata_model (chunk_metadata r) (ChatLLMMetadata_of self md).

(** The record of lines 219-234. *)
Definition final_record (self : ChatLLMService) (md : Model)
           (mm : MessageMetadata) (full_answer : string)
           (r : ParsedRAGChunkResponse) : GetChatHistoryOutput :=
  GetChatHistoryOutput_of full_answer (ModelDump (final_metadata self md r)) mm.

(** What [save_answer] hands to the chat service for an answer text and an
    optional metadata object (lines 116-125). *)
Definition CreateChatHistory_of (self : ChatLLMService) (question : string)
           (text : string) (m : option RAGResponseMetadata) : CreateChatHistory :=
  {| cch_chat_id := svc_chat_id self;
     cch_user_message := question;
     cch_assistant := text;
     cch_brain_id := None;
     cch_prompt_id := None;
     cch_metadata := match m with
                     | Some m => ModelDump m
                     | None => EmptyDict
                     end |}.

(** The metadata a synchronous call stores for a model response
    (lines 143-152). *)
Definition sync_metadata (self : ChatLLMService) (resp : ParsedRAGResponse)
  : option RAGResponseMetadata :=
  match metadata resp, get_model env (model_name (model_to_use self)) with
  | Some m, Some md => Some (set_metadata_model m (ChatLLMMetadata_of self md))
  | _, _ => None
  end.

End Service.

(** The in-order concatenation of the texts of a list of chunks. *)
Fixpoint buffer (cs : list ParsedRAGChunkResponse) : string :=
  match cs with
  | [] => ""
  | c :: cs' => chunk_answer c ++ buffer cs'
  end.

(** The event lines, and the log entries, of the records of lines 208-214
    for a list of chunks. *)
Definition partial_lines (mm : MessageMetadata)
           (cs : list ParsedRAGChunkResponse) : list SSE :=
  map (fun c => Data (partial_record mm c)) cs.

Definition yield_events (mm : MessageMetadata)
           (cs : list ParsedRAGChunkResponse) : list Event :=
  map (fun c => EvYield (Data (partial_record mm c))) cs.

Definition non_terminal (c : ParsedRAGChunkResponse) : Prop :=
  last_chunk c = false.

(** Event classes. *)
Definition is_quota (e : Event) : bool :=
  match e with
  | EvResolve _ _ | EvRecordUsage _ _ => true
  | _ => false
  end.

Definition is_persist (e : Event) : bool :=
  match e with
  | EvPersist _ => true
  | _ => false
  end.

(** The descriptive model block a metadata dict carries, if any. *)
Definition model_block (d : MetadataDict) : option ChatLLMMetadata :=
  match d with
  | ModelDump m => metadata_model m
  | EmptyDict => None
  end.

(** The synthetic id a stored turn carries, if any. *)
Definition synthetic_id (t : ChatHistory) : option string :=
  match model_block (ch_metadata t) with
  | Some cm => cm_brain_id cm
  | None => None
  end.

(** The stored turn [t] carries the synthetic id derived from [name]. *)
Definition carries_id_of (generate_uuid_from_string : string -> UUID)
           (name : string) (t : ChatHistory) : Prop :=
  synthetic_id t = Some (str (generate_uuid_from_string name)).

(** The turns stored between world [w] and a later world [w']. *)
Definition new_turns (w w' : World) : list ChatHistory :=
  skipn (length (history w)) (history w').

Definition new_events (w w' : World) : list Event :=
  skipn (length (log w)) (log w').

(** [appended w w' turns evs]: from [w] to [w'] exactly [turns] were stored
    and exactly [evs] were logged, and the ledger was not touched. *)
Definition appended (w w' : World) (turns : list ChatHistory)
           (evs : list Event) : Prop :=
  ledger w' = ledger w /\
  history w' = (history w ++ turns)%list /\
  log w' = (log w ++ evs)%list.

(** The stored turn [t] holds what the input [c] asked to store. *)
Definition stores (c : CreateChatHistory) (t : ChatHistory) : Prop :=
  ch_chat_id t = cch_chat_id c /\
  ch_user_message t = cch_user_message c /\
  ch_assistant t = cch_assistant c /\
  ch_metadata t = cch_metadata c.

(** An upper bound on the number of [anext] calls a generator still answers
    with a record, plus one for the call that ends the iteration. *)
Definition gen_size (env : Collaborators) (self : ChatLLMService)
           (g : Generator) (w : World) : nat :=
  match g with
  | Created question => stream_length (provider_stream env self question w) + 2
  | AtLoopYield f => stream_length (fr_stream f) + 2
  | AtFinalYield => 1
  | Finished => 1
  end.

(** The number of turns a generator still has to store before it ends
    normally. *)
Definition turns_due (g : Generator) : nat :=
  match g with
  | Created _ | AtLoopYield _ => 1
  | AtFinalYield | Finished => 0
  end.

(** The world in which the loop of line 205 is entered: [uuid4()] and
    [now()] have been called and the provider has been asked. *)
Definition after_prologue (question : string) (w : World) : World :=
  {| ledger := ledger w; history := history w;
     clock := S (clock w); rng := S (rng w);
     log := log w ++ [EvModelCall question] |}.

Definition not_quota (e : Event) : Prop := is_quota e = false.

(** The log up to the first call of the Answer Persister. *)
Fixpoint before_persist (l : list Event) : list Event :=
  match l with
  | [] => []
  | e :: l' => if is_persist e then [] else e :: before_persist l'
  end.

Fixpoint last_record (ys : list SSE) : option SSE :=
  match ys with
  | [] => None
  | [y] => Some y
  | _ :: ys' => last_record ys'
  end.

(** The reading of "emission of the final record precedes persistence": the
    last record handed out was emitted before the Answer Persister was
    called. *)
Definition final_emitted_before_persist (ys : list SSE) (evs : list Event)
  : Prop :=
  exists y, last_record ys = Some y /\ In (EvYield y) (before_persist evs).

(** The reading of "each partial record carries the cumulative buffer":
    the [k]-th record holds the concatenation of the first [k+1] chunk
    texts. *)
Definition partial_records_cumulative (ys : list SSE)
           (pre : list ParsedRAGChunkResponse) : Prop :=
  forall k, k < length pre ->
            option_map (fun y => assistant (sse_record y)) (nth_error ys k)
            = Some (buffer (firstn (S k) pre)).

(** The reading of "the persisted Turn's metadata contains the descriptive
    model block": the stored turns all carry one. *)
Definition turns_have_model_block (ts : list ChatHistory) : Prop :=
  Forall (fun t => model_block (ch_metadata t) <> None) ts.

(** *** The loop of lines 205-216 as a function of the chunks received *)

(** The buffer after one pass of the loop body over chunk [c]: a
    non-terminal chunk is appended (line 213), then line 215 is evaluated. *)
Definition absorb_chunk (full_answer : string) (c : ParsedRAGChunkResponse)
  : string :=
  absorb_last_chunk
    (if last_chunk c then full_answer else full_answer ++ chunk_answer c) c.

(** The buffer after the loop has run over [cs]. *)
Fixpoint accumulate (full_answer : string) (cs : list ParsedRAGChunkResponse)
  : string :=
  match cs with
  | [] => full_answer
  | c :: cs' => accumulate (absorb_chunk full_answer c) cs'
  end.

(** The loop variable after the loop has run over [cs]. *)
Fixpoint last_response (response : option ParsedRAGChunkResponse)
         (cs : list ParsedRAGChunkResponse) : option ParsedRAGChunkResponse :=
  match cs with
  | [] => response
  | c :: cs' => last_response (Some c) cs'
  end.

(** The chunks that reach the [yield] of line 214. *)
Definition emitted (cs : list ParsedRAGChunkResponse)
  : list ParsedRAGChunkResponse :=
  filter (fun c => negb (last_chunk c)) cs.

Definition is_model_call (e : Event) : bool :=
  match e with
  | EvModelCall _ => true
  | _ => false
  end.

(** ** A concrete scenario: one user, one model, a three-chunk stream *)

Module Scenario.

Definition model_x : Model :=
  {| model_name := "model-x"; model_price := 1;
     model_max_input := 4000; model_max_output := 1000;
     model_description := "a model"; model_image_url := "x.png";
     model_display_name := "Model X" |}.

Definition no_metadata : RAGResponseMetadata :=
  {| provider_fields := []; metadata_model := None |}.

Definition chunk (text : string) (last : bool) : ParsedRAGChunkResponse :=
  {| chunk_answer := text; chunk_metadata := no_metadata; last_chunk := last |}.

(** Collaborators whose LLM streams [s] and answers [r]. *)
Definition collaborators (s : AStream) (r : result ParsedRAGResponse)
  : Collaborators :=
  {| ollama_api_base_url := None;
     temperature_default := "0.7";
     get_user_settings := fun _ => {| monthly_chat_credit := 100 |};
     get_models := fun _ => [model_x];
     compute_cost := fun m _ => model_price m;
     get_model := fun n => if n =? "model-x" then Some model_x else None;
     format_chat_history := fun _ => [];
     llm_answer := fun _ _ _ => r;
     llm_answer_astream := fun _ _ _ => s;
     uuid_source := fun n => "turn-id";
     storage_fails := fun _ _ => false |}.

Definition uuid_of_name (s : string) : UUID := "uuid-of-" ++ s.

Definition alice : UserIdentity := {| user_id := "alice"; user_email := "a@x.org" |}.

Definition service : ChatLLMService :=
  {| current_user := alice; svc_chat_id := "chat-1"; model_to_use := model_x |}.

Definition empty_world : World :=
  {| ledger := []; history := []; clock := 0; rng := 0; log := [] |}.

Definition a_b_stream : AStream :=
  chunks_then [chunk "a" false; chunk "b" false] (Next (chunk "" true) Stop).

Definition plain_answer : ParsedRAGResponse :=
  {| answer := "4"; metadata := None |}.

Definition answer_with_metadata : ParsedRAGResponse :=
  {| answer := "4"; metadata := Some no_metadata |}.

Definition question : string := "What is 2+2?".

(** The LLM answers ["4"] without metadata, or with metadata, or fails. *)
Definition env_plain : Collaborators := collaborators Stop (Ok plain_answer).
Definition env_metadata : Collaborators :=
  collaborators Stop (Ok answer_with_metadata).
Definition env_failing : Collaborators :=
  collaborators (Next (chunk "a" false) (Fail InvocationError))
                (Raise InvocationError).

(** The LLM streams ["a"], ["b"] and an empty terminal chunk. *)
Definition env_stream : Collaborators :=
  collaborators a_b_stream (Raise InvocationError).

(** The whole answer arrives in the terminal chunk. *)
Definition env_terminal_only : Collaborators :=
  collaborators (Next (chunk "" false) (Next (chunk "4" true) Stop))
                (Raise InvocationError).

(** A local endpoint is configured, and one model is served by it. *)
Definition env_ollama : Collaborators :=
  {| ollama_api_base_url := Some "http://localhost:11434";
     temperature_default := "0.7";
     get_user_settings := get_user_settings env_plain;
     get_models := get_models env_plain;
     compute_cost := compute_cost env_plain;
     get_model := get_model env_plain;
     format_chat_history := format_chat_history env_plain;
     llm_answer := llm_answer env_plain;
     llm_answer_astream := llm_answer_astream env_plain;
     uuid_source := uuid_source env_plain;
     storage_fails := storage_fails env_plain |}.

Definition ollama_service : ChatLLMService :=
  {| current_user := alice; svc_chat_id := "chat-1";
     model_to_use :=
       {| model_name := "ollama/llama3"; model_price := 0;
          model_max_input := 2000; model_max_output := 500;
          model_description := "local"; model_image_url := "l.png";
          model_display_name := "Llama" |} |}.

(** A world in which alice has used up her credit. *)
Definition exhausted_world : World :=
  {| ledger := [("alice", 100%Z)]; history := []; clock := 0; rng := 0;
     log := [] |}.

(** The world [__init__] leaves for alice and model-x. *)
Definition constructed_world : World :=
  {| ledger := [("alice", 1%Z)]; history := []; clock := 0; rng := 0;
     log := [EvResolve "alice" "model-x"; EvRecordUsage "alice" 1] |}.

(** The descriptive block of model-x, and the turn stored for an answer. *)
Definition block_x : ChatLLMMetadata :=
  {| cm_name := "model-x";
     cm_description := Some "a model";
     cm_image_url := Some "x.png";
     cm_display_name := Some "Model X";
     cm_brain_id := Some "uuid-of-model-x";
     cm_brain_name := Some "model-x" |}.

Definition stored_turn (text : string) (time : datetime) : ChatHistory :=
  {| ch_chat_id := "chat-1";
     ch_message_id := "turn-id";
     ch_user_message := question;
     ch_assistant := text;
     ch_message_time := time;
     ch_brain_id := None;
     ch_prompt_id := None;
     ch_metadata :=
       ModelDump {| provider_fields := []; metadata_model := Some block_x |} |}.

End Scenario.

(** ** Provider sequences and collaborators off the happy path *)

Module Edge.

Import Scenario.

(** No chunk carries the terminal flag. *)
Definition env_no_terminal : Collaborators :=
  collaborators (chunks_then [chunk "a" false; chunk "b" false] Stop)
                (Raise InvocationError).

(** The terminal flag comes in the middle. *)
Definition env_flag_in_middle : Collaborators :=
  collaborators
    (chunks_then [chunk "a" false; chunk "x" true; chunk "b" false] Stop)
    (Raise InvocationError).

(** The storage refuses every turn. *)
Definition with_storage_down (e : Collaborators) : Collaborators :=
  {| ollama_api_base_url := ollama_api_base_url e;
     temperature_default := temperature_default e;
     get_user_settings := get_user_settings e;
     get_models := get_models e;
     compute_cost := compute_cost e;
     get_model := get_model e;
     format_chat_history := format_chat_history e;
     llm_answer := llm_answer e;
     llm_answer_astream := llm_answer_astream e;
     uuid_source := uuid_source e;
     storage_fails := fun _ _ => true |}.

(** The model service knows no model. *)
Definition without_descriptions (e : Collaborators) : Collaborators :=
  {| ollama_api_base_url := ollama_api_base_url e;
     temperature_default := temperature_default e;
     get_user_settings := get_user_settings e;
     get_models := get_models e;
     compute_cost := compute_cost e;
     get_model := fun _ => None;
     format_chat_history := format_chat_history e;
     llm_answer := llm_answer e;
     llm_answer_astream := llm_answer_astream e;
     uuid_source := uuid_source e;
     storage_fails := storage_fails e |}.

(** The [message_metadata] of a stream started in the empty world. *)
Definition first_metadata : MessageMetadata :=
  {| mm_chat_id := "chat-1"; mm_message_id := "turn-id";
     mm_user_message := question; mm_message_time := 0;
     mm_prompt_title := None; mm_brain_name := None; mm_brain_id := None |}.

End Edge.

(** ** Facts about the primitives *)

Lemma string_app_nil_r (s : string) : s ++ "" = s.
Proof. induction s as [|a s IH]; simpl; [reflexivity | now rewrite IH]. Qed.

Lemma string_app_assoc (a b c : string) : (a ++ b) ++ c = a ++ (b ++ c).
Proof. induction a as [|x a IH]; simpl; [reflexivity | now rewrite IH]. Qed.

Lemma appended_refl (w : World) : appended w w [] [].
Proof. unfold appended; now rewrite !app_nil_r. Qed.

Lemma appended_trans (w1 w2 w3 : World) ts1 ts2 evs1 evs2 :
  appended w1 w2 ts1 evs1 -> appended w2 w3 ts2 evs2 ->
  appended w1 w3 (ts1 ++ ts2)%list (evs1 ++ evs2)%list.
Proof.
  intros (L1 & H1 & G1) (L2 & H2 & G2); unfold appended.
  rewrite L2, H2, G2, L1, H1, G1, !app_assoc; auto.
Qed.

Lemma appended_log_append (w : World) (evs : list Event) :
  appended w (log_append w evs) [] evs.
Proof. unfold appended; simpl; now rewrite app_nil_r. Qed.

Lemma log_append_app (w : World) (a b : list Event) :
  log_append (log_append w a) b = log_append w (a ++ b)%list.
Proof. unfold log_append; simpl; now rewrite app_assoc. Qed.

Lemma new_turns_app (w w' : World) ts :
  history w' = (history w ++ ts)%list -> new_turns w w' = ts.
Proof.
  intros H; unfold new_turns; rewrite H.
  rewrite skipn_app, skipn_all, Nat.sub_diag; reflexivity.
Qed.

Lemma new_events_app (w w' : World) evs :
  log w' = (log w ++ evs)%list -> new_events w w' = evs.
Proof.
  intros H; unfold new_events; rewrite H.
  rewrite skipn_app, skipn_all, Nat.sub_diag; reflexivity.
Qed.

Lemma appended_new_turns (w w' : World) ts evs :
  appended w w' ts evs -> new_turns w w' = ts.
Proof.
  intros (_ & H & _); unfold new_turns; rewrite H.
  rewrite skipn_app, skipn_all, Nat.sub_diag; reflexivity.
Qed.

Lemma appended_new_events (w w' : World) ts evs :
  appended w w' ts evs -> new_events w w' = evs.
Proof.
  intros (_ & _ & H); unfold new_events; rewrite H.
  rewrite skipn_app, skipn_all, Nat.sub_diag; reflexivity.
Qed.

Lemma find_absent (name : string) (l : list Model) :
  ~ In name (map model_name l) ->
  find (fun m => model_name m =? name) l = None.
Proof.
  induction l as [|m l IH]; simpl; intros H; [reflexivity|].
  destruct (String.eqb_spec (model_name m) name) as [E|E]; [tauto|].
  apply IH; tauto.
Qed.

Section Facts.

Variable generate_uuid_from_string : string -> UUID.
Variable env : Collaborators.

Lemma update_chat_history_inv (c : CreateChatHistory) (w w' : World) r :
  update_chat_history env c w = (r, w') ->
  match r with
  | Ok t => appended w w' [t] [EvPersist c] /\ stores c t /\
            storage_fails env (history w) c = false
  | Raise e => appended w w' [] [EvPersist c] /\ e = PersistenceError
  end.
Proof.
  unfold update_chat_history, bind, emit; simpl.
  destruct (storage_fails env (history w) c); intros E; inversion E; subst.
  - split; [apply appended_log_append | reflexivity].
  - unfold appended, stores; simpl; auto 10.
Qed.

Lemma update_chat_history_ok (c : CreateChatHistory) (w : World) :
  storage_fails env (history w) c = false ->
  exists t w', update_chat_history env c w = (Ok t, w').
Proof.
  intros Hs; unfold update_chat_history, bind, emit; simpl; rewrite Hs.
  eexists; eexists; reflexivity.
Qed.

Lemma save_answer_eq self question text m :
  save_answer env self question {| answer := text; metadata := m |}
  = update_chat_history env (CreateChatHistory_of self question text m).
Proof. reflexivity. Qed.

(** What the code after the loop does, whatever it is given. *)
Lemma finalize_inv self question mmd mm fa resp w r w' :
  finalize generate_uuid_from_string env self question mmd mm fa resp w = (r, w') ->
  match r with
  | Ok (y, g) =>
      exists term md t,
        resp = Some term /\ mmd = Some md /\ g = AtFinalYield /\
        y = Data (final_record generate_uuid_from_string self md mm fa term) /\
        appended w w' [t]
          [EvPersist (CreateChatHistory_of self question fa
                        (Some (final_metadata generate_uuid_from_string self md term)));
           EvYield y] /\
        stores (CreateChatHistory_of self question fa
                  (Some (final_metadata generate_uuid_from_string self md term))) t
  | Raise e =>
      exists evs, appended w w' [] evs /\
                  (evs = [] \/ exists c, evs = [EvPersist c])
  end.
Proof.
  unfold finalize.
  destruct resp as [term|]; [|intros E; inversion E; subst; eauto using appended_refl].
  destruct mmd as [md|]; simpl;
    [|unfold bind, lift; simpl; intros E; inversion E; subst;
      eauto using appended_refl].
  unfold bind, lift; simpl. rewrite save_answer_eq.
  destruct (update_chat_history env _ w) as [[t|e] w1] eqn:E;
    apply update_chat_history_inv in E; intros F; inversion F; subst; clear F.
  - destruct E as (A & S & _).
    exists term, md, t. do 4 (split; [reflexivity|]). split; [|exact S].
    apply (appended_trans _ _ _ _ _ _ _ A (appended_log_append _ _)).
  - destruct E as (A & _). eauto.
Qed.

Lemma finalize_ok self question md mm fa term w :
  storage_fails env (history w)
    (CreateChatHistory_of self question fa
       (Some (final_metadata generate_uuid_from_string self md term))) = false ->
  exists y w',
    finalize generate_uuid_from_string env self question (Some md) mm fa (Some term) w
    = (Ok (y, AtFinalYield), w').
Proof.
  intros Hs. unfold finalize; simpl. unfold bind, lift; simpl.
  rewrite save_answer_eq.
  destruct (update_chat_history_ok _ _ Hs) as (t & w1 & E).
  unfold final_metadata in E. simpl in E. rewrite E. simpl.
  eexists; eexists; reflexivity.
Qed.

(** One run of the loop body up to its next suspension, on any provider
    sequence. *)
Lemma iterate_inv self question mmd mm s :
  forall fa resp w r w',
    iterate generate_uuid_from_string env self question mmd mm fa resp s w = (r, w') ->
    match r with
    | Ok (y, AtLoopYield f) =>
        appended w w' [] [EvYield y] /\
        stream_length (fr_stream f) < stream_length s
    | Ok (y, AtFinalYield) =>
        exists t c, appended w w' [t] [EvPersist c; EvYield y] /\
                    carries_id_of generate_uuid_from_string
                      (model_name (model_to_use self)) t
    | Ok (_, _) => False
    | Raise e =>
        exists evs, appended w w' [] evs /\
                    (evs = [] \/ exists c, evs = [EvPersist c])
    end.
Proof.
  induction s as [|e|c s IH]; intros fa resp w r w'; simpl.
  - intros E. apply finalize_inv in E. destruct r as [[y g]|e]; [|exact E].
    destruct E as (term & md & t & _ & _ & -> & _ & A & S).
    exists t; eexists; split; [exact A|].
    destruct S as (_ & _ & _ & S). unfold carries_id_of, synthetic_id.
    rewrite S; reflexivity.
  - intros E; inversion E; subst. eauto using appended_refl.
  - destruct (negb (last_chunk c)).
    + unfold bind, emit, ret; simpl. intros E; inversion E; subst; simpl.
      split; [apply appended_log_append | lia].
    + intros E. apply IH in E.
      destruct r as [[y [q|f| |]]|e]; try exact E.
      destruct E as (A & L); split; [exact A | lia].
Qed.

Lemma appended_after_prologue question w :
  appended w (after_prologue question w) [] [EvModelCall question].
Proof. unfold appended; simpl; now rewrite app_nil_r. Qed.

(** One [anext]: what it stores and logs, and how the generator advances. *)
Lemma anext_inv self g w o g' w' :
  anext generate_uuid_from_string env self g w = (o, g', w') ->
  exists ts evs,
    appended w w' ts evs /\ Forall not_quota evs /\
    Forall (carries_id_of generate_uuid_from_string
              (model_name (model_to_use self))) ts /\
    match o with
    | Yielded _ => turns_due g = length ts + turns_due g' /\
                   gen_size env self g' w' < gen_size env self g w /\
                   length (filter is_persist evs) = length ts
    | StopAsyncIteration => ts = [] /\ turns_due g = 0 /\ w' = w /\ evs = []
    | Raised _ => ts = [] /\ turns_due g = 1
    end.
Proof.
  assert (body : forall c w0 evs0 dues size,
             appended w w0 [] evs0 -> Forall not_quota evs0 ->
             filter is_persist evs0 = [] ->
             (forall r w1, c w0 = (r, w1) ->
                match r with
                | Ok (y, AtLoopYield f) =>
                    appended w0 w1 [] [EvYield y] /\
                    stream_length (fr_stream f) < size
                | Ok (y, AtFinalYield) =>
                    exists t c, appended w0 w1 [t] [EvPersist c; EvYield y] /\
                                carries_id_of generate_uuid_from_string
                                  (model_name (model_to_use self)) t
                | Ok (_, _) => False
                | Raise e =>
                    exists evs, appended w0 w1 [] evs /\
                                (evs = [] \/ exists c, evs = [EvPersist c])
                end) ->
             run_body c w0 = (o, g', w') ->
             exists ts evs,
               appended w w' ts evs /\ Forall not_quota evs /\
               Forall (carries_id_of generate_uuid_from_string
                         (model_name (model_to_use self))) ts /\
               match o with
               | Yielded _ => 1 = length ts + turns_due g' /\
                              gen_size env self g' w' < size + 2 /\
                              length (filter is_persist evs) = length ts
               | StopAsyncIteration => ts = [] /\ dues = 0 /\ w' = w /\ evs = []
               | Raised _ => ts = [] /\ 1 = 1
               end).
  { intros c w0 evs0 dues size A0 Q0 P0 Hc. unfold run_body.
    destruct (c w0) as [[[y gy]|e] w1]; specialize (Hc _ _ eq_refl);
      intros F; inversion F; subst; clear F.
    - destruct g' as [q|f| |]; try contradiction.
      + destruct Hc as (A & L). exists [], (evs0 ++ [EvYield y])%list.
        split; [apply (appended_trans _ _ _ _ _ _ _ A0 A)|].
        split; [apply Forall_app; split; [exact Q0 | repeat constructor]|].
        split; [constructor|].
        rewrite filter_app, P0.
        simpl; split; [reflexivity | split; [lia | reflexivity]].
      + destruct Hc as (t & c0 & A & I).
        exists [t], (evs0 ++ [EvPersist c0; EvYield y])%list.
        split; [apply (appended_trans _ _ _ _ _ _ _ A0 A)|].
        split; [apply Forall_app; split; [exact Q0 | repeat constructor]|].
        split; [repeat constructor; exact I|].
        rewrite filter_app, P0.
        simpl; split; [reflexivity | split; [lia | reflexivity]].
    - destruct Hc as (evs & A & Hev). exists [], (evs0 ++ evs)%list.
      split; [apply (appended_trans _ _ _ _ _ _ _ A0 A)|].
      split; [|split; [constructor | auto]].
      apply Forall_app; split; [exact Q0|].
      destruct Hev as [->|(c0 & ->)]; repeat constructor. }
  destruct g as [q|f| |]; cbn [anext].
  - intros E.
    change (run_body
              (iterate generate_uuid_from_string env self q
                 (get_model env (model_name (model_to_use self)))
                 (message_metadata_at env self q w) "" None
                 (provider_stream env self q w))
              (after_prologue q w) = (o, g', w')) in E.
    eapply (body _ _ _ 1 _ (appended_after_prologue q w)) in E;
      [| repeat constructor | reflexivity | intros r w1; apply iterate_inv].
    exact E.
  - intros E. unfold resume in E.
    eapply (body _ w [] 1 _ (appended_refl w)) in E;
      [| constructor | reflexivity | intros r w1; apply iterate_inv].
    exact E.
  - intros E; inversion E; subst. exists [], [].
    split; [apply appended_refl | split; [constructor | split; [constructor | auto]]].
  - intros E; inversion E; subst. exists [], [].
    split; [apply appended_refl | split; [constructor | split; [constructor | auto]]].
Qed.

Lemma turns_due_le_1 (g : Generator) : turns_due g <= 1.
Proof. destruct g; simpl; lia. Qed.

(** Running a generator to its end: what was stored and logged. *)
Lemma drain_inv self :
  forall fuel g w ys r w',
    drain generate_uuid_from_string env self fuel g w = Some (ys, r, w') ->
    exists ts evs,
      appended w w' ts evs /\ Forall not_quota evs /\
      Forall (carries_id_of generate_uuid_from_string
                (model_name (model_to_use self))) ts /\
      match r with
      | Ok _ => length ts = turns_due g /\
                length (filter is_persist evs) = length ts
      | Raise _ => ts = [] /\ turns_due g = 1
      end.
Proof.
  induction fuel as [|fuel IH]; intros g w ys r w' H; simpl in H; [discriminate|].
  unfold on_outcome in H.
  destruct (anext generate_uuid_from_string env self g w) as [[o g1] w1] eqn:E.
  apply anext_inv in E. destruct E as (ts1 & evs1 & A1 & Q1 & I1 & Ho).
  destruct o as [y| |e].
  - destruct (drain generate_uuid_from_string env self fuel g1 w1)
      as [[[ys2 r2] w2]|] eqn:D; [|discriminate].
    inversion H; subst; clear H.
    apply IH in D. destruct D as (ts2 & evs2 & A2 & Q2 & I2 & Hr).
    exists (ts1 ++ ts2)%list, (evs1 ++ evs2)%list.
    split; [apply (appended_trans _ _ _ _ _ _ _ A1 A2)|].
    split; [apply Forall_app; auto|].
    split; [apply Forall_app; auto|].
    destruct Ho as (Hd & _ & Hp). pose proof (turns_due_le_1 g) as Hle.
    destruct r as [u|e].
    + rewrite filter_app, !length_app; lia.
    + destruct Hr as (-> & Hd'). rewrite app_nil_r.
      split; [|lia]. destruct ts1; [reflexivity | simpl in Hd; lia].
  - inversion H; subst; clear H. exists ts1, evs1.
    destruct Ho as (-> & Hd & _ & ->). auto.
  - inversion H; subst; clear H. exists ts1, evs1. auto.
Qed.

(** With fuel for every remaining chunk plus two, the consumer sees the end
    of the generator. *)
Lemma drain_total self :
  forall fuel g w,
    gen_size env self g w <= fuel ->
    exists ys r w', drain generate_uuid_from_string env self fuel g w = Some (ys, r, w').
Proof.
  induction fuel as [|fuel IH]; intros g w Hf.
  - destruct g; simpl in Hf; lia.
  - simpl; unfold on_outcome.
    destruct (anext generate_uuid_from_string env self g w) as [[o g1] w1] eqn:E.
    apply anext_inv in E. destruct E as (ts1 & evs1 & _ & _ & _ & Ho).
    destruct o as [y| |e]; eauto.
    destruct Ho as (_ & Hlt & _).
    destruct (IH g1 w1) as (ys & r & w' & D); [lia|].
    rewrite D; eauto.
Qed.

Lemma pull_inv self :
  forall k g w ys g' w',
    pull generate_uuid_from_string env self k g w = (ys, g', w') ->
    exists ts evs,
      appended w w' ts evs /\ Forall not_quota evs /\
      Forall (carries_id_of generate_uuid_from_string
                (model_name (model_to_use self))) ts.
Proof.
  induction k as [|k IH]; intros g w ys g' w' H; simpl in H.
  - inversion H; subst. exists [], [].
    split; [apply appended_refl | split; constructor].
  - unfold take_outcome in H.
    destruct (anext generate_uuid_from_string env self g w) as [[o g1] w1] eqn:E.
    apply anext_inv in E. destruct E as (ts1 & evs1 & A1 & Q1 & I1 & _).
    destruct o as [y| |e]; try (inversion H; subst; eauto 6; fail).
    destruct (pull generate_uuid_from_string env self k g1 w1)
      as [[ys2 g2] w2] eqn:P.
    inversion H; subst; clear H.
    apply IH in P. destruct P as (ts2 & evs2 & A2 & Q2 & I2).
    exists (ts1 ++ ts2)%list, (evs1 ++ evs2)%list.
    split; [apply (appended_trans _ _ _ _ _ _ _ A1 A2)|].
    split; apply Forall_app; auto.
Qed.

(** [generate_answer]: every way it can end. *)
Lemma generate_answer_inv self question w r w' :
  generate_answer generate_uuid_from_string env self question w = (r, w') ->
  match r with
  | Ok out =>
      exists resp t,
        llm_answer env (build_llm env self) question (chat_history_at env self w)
        = Ok resp /\
        (metadata resp <> None ->
         get_model env (model_name (model_to_use self)) <> None) /\
        appended w w' [t]
          [EvModelCall question;
           EvPersist (CreateChatHistory_of self question (answer resp)
                        (sync_metadata generate_uuid_from_string env self resp))] /\
        stores (CreateChatHistory_of self question (answer resp)
                  (sync_metadata generate_uuid_from_string env self resp)) t /\
        assistant out = answer resp /\
        out_metadata out = ch_metadata t
  | Raise e =>
      exists evs,
        appended w w' [] evs /\ Forall not_quota evs /\
        (llm_answer env (build_llm env self) question (chat_history_at env self w)
         = Raise e -> evs = [EvModelCall question])
  end.
Proof.
  unfold generate_answer, bind, get_chat_history, chat_llm_answer, bind, emit, lift.
  fold (chat_history_at env self w). simpl.
  destruct (llm_answer env (build_llm env self) question (chat_history_at env self w))
    as [resp|e0] eqn:L.
  2:{ intros E; inversion E; subst. exists [EvModelCall question].
      split; [apply appended_log_append | split; [repeat constructor | auto]]. }
  unfold sync_metadata.
  destruct resp as [text [m|]]; simpl.
  - destruct (get_model env (model_name (model_to_use self))) as [md|]; simpl.
    + unfold ret; rewrite save_answer_eq.
      destruct (update_chat_history env _ _) as [[t|e] w1] eqn:U;
        apply update_chat_history_inv in U; intros E; inversion E; subst; clear E.
      * destruct U as (A & S & _). exists {| answer := text; metadata := Some m |}, t.
        simpl. split; [reflexivity|]. split; [congruence|].
        split; [apply (appended_trans _ _ _ _ _ _ _ (appended_log_append _ _) A)|].
        split; [exact S|]. split; [reflexivity|]. symmetry; apply S.
      * destruct U as (A & _).
        exists [EvModelCall question; EvPersist (CreateChatHistory_of self question text
                  (Some (set_metadata_model m
                           (ChatLLMMetadata_of generate_uuid_from_string self md))))].
        split; [apply (appended_trans _ _ _ _ _ _ _ (appended_log_append _ _) A)|].
        split; [repeat constructor | discriminate].
    + intros E; inversion E; subst. exists [EvModelCall question].
      split; [apply appended_log_append | split; [repeat constructor | discriminate]].
  - unfold ret. rewrite save_answer_eq.
    destruct (update_chat_history env _ _) as [[t|e] w1] eqn:U;
      apply update_chat_history_inv in U; intros E; inversion E; subst; clear E.
    + destruct U as (A & S & _). exists {| answer := text; metadata := None |}, t.
      simpl. split; [reflexivity|]. split; [congruence|].
      split; [apply (appended_trans _ _ _ _ _ _ _ (appended_log_append _ _) A)|].
      split; [exact S|]. split; [reflexivity|]. symmetry; apply S.
    + destruct U as (A & _).
      exists [EvModelCall question;
              EvPersist (CreateChatHistory_of self question text None)].
      split; [apply (appended_trans _ _ _ _ _ _ _ (appended_log_append _ _) A)|].
      split; [repeat constructor | discriminate].
Qed.

(** *** Provider sequences of non-terminal chunks followed by a tail *)

Lemma log_append_nil (w : World) : log_append w [] = w.
Proof. destruct w; unfold log_append; simpl; now rewrite app_nil_r. Qed.

Lemma absorb_non_terminal fa c :
  non_terminal c -> absorb_last_chunk fa c = fa.
Proof. unfold non_terminal, absorb_last_chunk; now intros ->. Qed.

Lemma absorb_terminal fa c :
  last_chunk c = true ->
  absorb_last_chunk fa c = if fa =? "" then chunk_answer c else fa.
Proof.
  unfold absorb_last_chunk; intros ->; simpl.
  destruct (String.eqb_spec fa ""); [subst; reflexivity | reflexivity].
Qed.

(** Draining a generator whose provider sends the non-terminal chunks [pre]
    and then one terminal chunk: every chunk of [pre] is answered with its
    record, then the code after the loop runs once. *)
Lemma drain_iterate_wellformed self question mmd mm term :
  last_chunk term = true ->
  forall pre fa resp w fuel,
    Forall non_terminal pre -> length pre < fuel ->
    on_outcome (drain generate_uuid_from_string env self fuel)
      (run_body (iterate generate_uuid_from_string env self question mmd mm
                   fa resp (chunks_then pre (Next term Stop))) w)
    = match finalize generate_uuid_from_string env self question mmd mm
              (absorb_last_chunk (fa ++ buffer pre) term) (Some term)
              (log_append w (yield_events mm pre)) with
      | (Ok (y, _), w') => Some ((partial_lines mm pre ++ [y])%list, Ok tt, w')
      | (Raise e, w') => Some (partial_lines mm pre, Raise e, w')
      end.
Proof.
  intros Ht. induction pre as [|c pre IH]; intros fa resp w fuel Hnt Hf.
  - cbn [chunks_then iterate buffer yield_events partial_lines map].
    rewrite Ht; cbn [negb]. rewrite string_app_nil_r, log_append_nil.
    unfold run_body.
    destruct (finalize _ _ _ _ _ _ _ _ w) as [[[y g]|e] w1] eqn:F; [|reflexivity].
    apply finalize_inv in F. destruct F as (? & ? & ? & _ & _ & -> & _).
    unfold on_outcome. destruct fuel; [simpl in Hf; lia | reflexivity].
  - inversion Hnt as [|? ? Hc Hpre]; subst.
    cbn [chunks_then iterate]. rewrite Hc; cbn [negb].
    unfold run_body, bind, emit, ret. cbn [on_outcome].
    destruct fuel as [|fuel]; [simpl in Hf; lia|].
    cbn [drain anext]. unfold resume; cbn [fr_question fr_model_metadata
      fr_message_metadata fr_full_answer fr_response fr_stream].
    rewrite (absorb_non_terminal _ _ Hc).
    rewrite IH by (auto; simpl in Hf; lia).
    rewrite string_app_assoc, log_append_app.
    cbn [buffer yield_events partial_lines map app].
    destruct (finalize _ _ _ _ _ _ _ _ _) as [[[y g]|e] w1]; reflexivity.
Qed.

(** Taking [k+1] records from a generator whose provider sends at least
    [k+1] non-terminal chunks first: the records of these chunks, and
    nothing but their emission has happened. *)
Lemma pull_iterate_prefix self question mmd mm tl :
  forall pre k fa resp w,
    Forall non_terminal pre -> k < length pre ->
    exists f,
      take_outcome (pull generate_uuid_from_string env self k)
        (run_body (iterate generate_uuid_from_string env self question mmd mm
                     fa resp (chunks_then pre tl)) w)
      = (partial_lines mm (firstn (S k) pre), AtLoopYield f,
         log_append w (yield_events mm (firstn (S k) pre))).
Proof.
  induction pre as [|c pre IH]; intros k fa resp w Hnt Hk; [simpl in Hk; lia|].
  inversion Hnt as [|? ? Hc Hpre]; subst.
  cbn [chunks_then iterate]. rewrite Hc; cbn [negb].
  unfold run_body, bind, emit, ret. cbn [take_outcome].
  destruct k as [|k].
  - cbn [pull]. eexists; reflexivity.
  - cbn [pull anext]. unfold resume; cbn [fr_question fr_model_metadata
      fr_message_metadata fr_full_answer fr_response fr_stream].
    rewrite (absorb_non_terminal _ _ Hc).
    destruct (IH k (fa ++ chunk_answer c)%string (Some c)
                 (log_append w [EvYield (Data (GetChatHistoryOutput_of
                    (chunk_answer c) (ModelDump (chunk_metadata c)) mm))]))
      as (f & E); [exact Hpre | simpl in Hk; lia|].
    rewrite E. rewrite log_append_app. exists f. reflexivity.
Qed.

(** *** Construction *)

(** [__init__]: every way it can end. *)
Lemma init_inv user name chat_id w r w' :
  __init__ env user name chat_id w = (r, w') ->
  history w' = history w /\
  match r with
  | Ok self =>
      exists cost,
        ledger w' = (ledger w ++ [(user_id user, cost)])%list /\
        log w' = (log w ++ [EvResolve (user_id user) name;
                            EvRecordUsage (user_id user) cost])%list /\
        find_model_and_generate_metadata name (get_user_settings env user)
          (get_models env user) = Ok (model_to_use self)
  | Raise e =>
      ledger w' = ledger w /\
      log w' = (log w ++ [EvResolve (user_id user) name])%list
  end.
Proof.
  unfold __init__, check_and_update_user_usage, bind, emit, lift, ret; simpl.
  destruct (find_model_and_generate_metadata name (get_user_settings env user)
              (get_models env user)) as [m|e]; simpl.
  - unfold update_user_usage; simpl.
    destruct (_ >? _)%Z; intros E; inversion E; subst; simpl; auto.
    split; [reflexivity|]. eexists; rewrite <- app_assoc; simpl; auto.
  - intros E; inversion E; subst; simpl; auto.
Qed.

(** *** Callers *)

Lemma run_op_inv self op w :
  exists ts evs, appended w (run_op generate_uuid_from_string env self op w) ts evs /\
                 Forall not_quota evs.
Proof.
  destruct op as [q|q k]; simpl.
  - destruct (generate_answer generate_uuid_from_string env self q w)
      as [[out|e] w'] eqn:E; apply generate_answer_inv in E; simpl.
    + destruct E as (resp & t & _ & _ & A & _).
      eexists; eexists; split; [exact A | repeat constructor].
    + destruct E as (evs & A & Q & _). eauto.
  - destruct (pull generate_uuid_from_string env self k
                (generate_answer_stream self q) w) as [[ys g] w'] eqn:E.
    apply pull_inv in E. destruct E as (ts & evs & A & Q & _). eauto.
Qed.

(** Whatever a call stores carries the synthetic id of the instance's model
    name, when it carries one at all. *)
Lemma run_op_ids self op w t id :
  In t (new_turns w (run_op generate_uuid_from_string env self op w)) ->
  synthetic_id t = Some id ->
  id = str (generate_uuid_from_string (model_name (model_to_use self))).
Proof.
  destruct op as [q|q k]; simpl.
  - destruct (generate_answer generate_uuid_from_string env self q w)
      as [[out|e] w'] eqn:E; apply generate_answer_inv in E; simpl.
    + destruct E as (resp & t0 & _ & _ & A & S & _).
      rewrite (appended_new_turns _ _ _ _ A). intros [<-|[]].
      destruct S as (_ & _ & _ & S). unfold synthetic_id. rewrite S; simpl.
      unfold sync_metadata.
      destruct (metadata resp) as [m|]; [|discriminate].
      destruct (get_model env (model_name (model_to_use self))) as [md|];
        [|discriminate].
      simpl. congruence.
    + destruct E as (evs & A & _). rewrite (appended_new_turns _ _ _ _ A).
      intros [].
  - destruct (pull generate_uuid_from_string env self k
                (generate_answer_stream self q) w) as [[ys g] w'] eqn:E.
    apply pull_inv in E. destruct E as (ts & evs & A & _ & I).
    simpl. rewrite (appended_new_turns _ _ _ _ A). intros Hin Hid.
    rewrite Forall_forall in I. specialize (I _ Hin).
    unfold carries_id_of in I. congruence.
Qed.

Lemma run_ops_inv self ops :
  forall w,
    exists ts evs, appended w (run_ops generate_uuid_from_string env self ops w) ts evs /\
                   Forall not_quota evs.
Proof.
  induction ops as [|op ops IH]; intros w; simpl.
  - exists [], []; split; [apply appended_refl | constructor].
  - destruct (run_op_inv self op w) as (ts1 & evs1 & A1 & Q1).
    destruct (IH (run_op generate_uuid_from_string env self op w))
      as (ts2 & evs2 & A2 & Q2).
    exists (ts1 ++ ts2)%list, (evs1 ++ evs2)%list.
    split; [apply (appended_trans _ _ _ _ _ _ _ A1 A2) | apply Forall_app; auto].
Qed.

(** *** Streams *)

Lemma drain_created self question fuel w :
  drain generate_uuid_from_string env self (S fuel)
        (generate_answer_stream self question) w
  = on_outcome (drain generate_uuid_from_string env self fuel)
      (run_body (iterate generate_uuid_from_string env self question
                   (get_model env (model_name (model_to_use self)))
                   (message_metadata_at env self question w) "" None
                   (provider_stream env self question w))
                (after_prologue question w)).
Proof. reflexivity. Qed.

Lemma pull_created self question k w :
  pull generate_uuid_from_string env self (S k)
       (generate_answer_stream self question) w
  = take_outcome (pull generate_uuid_from_string env self k)
      (run_body (iterate generate_uuid_from_string env self question
                   (get_model env (model_name (model_to_use self)))
                   (message_metadata_at env self question w) "" None
                   (provider_stream env self question w))
                (after_prologue question w)).
Proof. reflexivity. Qed.

(** A provider that raises after any chunks makes the generator raise the
    same exception. *)
Lemma drain_iterate_fail self question mmd mm e :
  forall pre fa resp w fuel,
    length pre < fuel ->
    exists ys w' evs,
      on_outcome (drain generate_uuid_from_string env self fuel)
        (run_body (iterate generate_uuid_from_string env self question mmd mm
                     fa resp (chunks_then pre (Fail e))) w)
      = Some (ys, Raise e, w') /\
      appended w w' [] evs /\ filter is_persist evs = [].
Proof.
  induction pre as [|c pre IH]; intros fa resp w fuel Hf.
  - cbn. exists [], w, []. split; [reflexivity|].
    split; [apply appended_refl | reflexivity].
  - cbn [chunks_then iterate]. destruct (last_chunk c) eqn:Hc; cbn [negb].
    + apply IH. simpl in Hf; lia.
    + unfold run_body, bind, emit, ret. cbn [on_outcome].
      destruct fuel as [|fuel]; [simpl in Hf; lia|].
      cbn [drain anext]. unfold resume; cbn [fr_question fr_model_metadata
        fr_message_metadata fr_full_answer fr_response fr_stream].
      edestruct IH as (ys & w' & evs & E & A & P); [|rewrite E].
      { simpl in Hf; lia. }
      eexists; exists w'; eexists. split; [reflexivity|].
      split; [apply (appended_trans _ _ _ _ _ _ _ (appended_log_append _ _) A)|].
      simpl. exact P.
Qed.

(** The whole run on a well-formed provider sequence, when the model
    description exists and the storage accepts the turn. *)
Lemma stream_run_wellformed self question w pre term md fuel :
  Forall non_terminal pre ->
  last_chunk term = true ->
  provider_stream env self question w = chunks_then pre (Next term Stop) ->
  get_model env (model_name (model_to_use self)) = Some md ->
  (forall h c, storage_fails env h c = false) ->
  length pre + 2 <= fuel ->
  let mm := message_metadata_at env self question w in
  let full := absorb_last_chunk (buffer pre) term in
  let final := final_record generate_uuid_from_string self md mm full term in
  let c := CreateChatHistory_of self question full
             (Some (final_metadata generate_uuid_from_string self md term)) in
  exists t w',
    drain generate_uuid_from_string env self fuel
          (generate_answer_stream self question) w
    = Some ((partial_lines mm pre ++ [Data final])%list, Ok tt, w') /\
    appended w w' [t]
      (EvModelCall question :: yield_events mm pre
         ++ [EvPersist c; EvYield (Data final)])%list /\
    stores c t.
Proof.
  intros Hnt Ht Hs Hm Hst Hf mm full final c.
  destruct fuel as [|fuel]; [lia|].
  rewrite drain_created, Hs, Hm.
  rewrite (drain_iterate_wellformed _ _ _ _ _ Ht) by (auto; lia).
  cbn [append].
  destruct (finalize_ok self question md mm full term
              (log_append (after_prologue question w) (yield_events mm pre))
              (Hst _ _)) as (y & w' & F).
  fold mm. fold full. rewrite F.
  apply finalize_inv in F.
  destruct F as (term' & md' & t & Et & Em & _ & -> & A & S).
  inversion Et; inversion Em; subst term' md'.
  exists t, w'. split; [reflexivity|]. split; [|exact S].
  pose proof (appended_trans _ _ _ _ _ _ _
                (appended_after_prologue question w)
                (appended_trans _ _ _ _ _ _ _
                   (appended_log_append _ (yield_events mm pre)) A)) as B.
  simpl in B. exact B.
Qed.

Lemma update_chat_history_fails (c : CreateChatHistory) (w : World) :
  storage_fails env (history w) c = true ->
  update_chat_history env c w
  = (Raise PersistenceError, log_append w [EvPersist c]).
Proof.
  intros Hs. unfold update_chat_history, bind, emit; simpl. now rewrite Hs.
Qed.

Lemma finalize_storage_down self question md mm fa r w :
  storage_fails env (history w)
    (CreateChatHistory_of self question fa
       (Some (final_metadata generate_uuid_from_string self md r))) = true ->
  finalize generate_uuid_from_string env self question (Some md) mm fa (Some r) w
  = (Raise PersistenceError,
     log_append w
       [EvPersist (CreateChatHistory_of self question fa
                     (Some (final_metadata generate_uuid_from_string self md r)))]).
Proof.
  intros Hs. unfold finalize; simpl. unfold bind, lift; simpl.
  rewrite save_answer_eq.
  unfold final_metadata in Hs; simpl in Hs.
  rewrite (update_chat_history_fails _ _ Hs). reflexivity.
Qed.

Lemma yield_events_no_persist mm cs :
  existsb is_persist (yield_events mm cs) = false.
Proof. induction cs as [|c cs IH]; simpl; auto. Qed.

Lemma yield_events_filter_persist mm cs :
  filter is_persist (yield_events mm cs) = [].
Proof. induction cs as [|c cs IH]; simpl; auto. Qed.

Lemma last_record_snoc ys y : last_record (ys ++ [y]) = Some y.
Proof.
  induction ys as [|a ys IH]; [reflexivity|].
  simpl. rewrite IH. destruct (ys ++ [y])%list eqn:E; [|reflexivity].
  destruct ys; discriminate.
Qed.

(** Taking [k] records while the provider is still sending non-terminal
    chunks: the records of the first [k] chunks, and only their emission
    (after the provider was asked) has happened. *)
Lemma pull_prefix_run self question w pre tl k :
  Forall non_terminal pre ->
  provider_stream env self question w = chunks_then pre tl ->
  k <= length pre ->
  exists g w' evs,
    pull generate_uuid_from_string env self k
         (generate_answer_stream self question) w
    = (partial_lines (message_metadata_at env self question w) (firstn k pre),
       g, w') /\
    appended w w' [] evs /\
    existsb is_persist evs = false.
Proof.
  intros Hnt Hs Hk. destruct k as [|k].
  - exists (generate_answer_stream self question), w, [].
    split; [reflexivity | split; [apply appended_refl | reflexivity]].
  - rewrite pull_created, Hs.
    destruct (pull_iterate_prefix self question
                (get_model env (model_name (model_to_use self)))
                (message_metadata_at env self question w) tl pre k "" None
                (after_prologue question w) Hnt) as (f & E); [lia|].
    rewrite E. eexists; eexists; eexists. split; [reflexivity|].
    split.
    + apply (appended_trans _ _ _ _ _ _ _
               (appended_after_prologue question w)
               (appended_log_append _ _)).
    + simpl. apply yield_events_no_persist.
Qed.

(** ** The claims *)

(** C1. Exactly-once persistence.  A [generate_answer] call that returns
    has stored exactly one turn through exactly one call of the persister,
    and one in which the model call raises stores none, never calls the
    persister and raises the same exception.  A [generate_answer_stream] call
    consumed to its end (which happens within [stream_length + 2] calls of
    [anext]) has stored exactly one turn through exactly one call of the
    persister when it ends normally, and none when it ends with a raise; when
    the provider raises after any chunks, it does end with that raise and the
    persister was never called. *)
Theorem C1_exactly_once_persistence self question w :
  (forall out w',
      generate_answer generate_uuid_from_string env self question w = (Ok out, w') ->
      (exists t, history w' = (history w ++ [t])%list) /\
      length (filter is_persist (new_events w w')) = 1) /\
  (forall e,
      llm_answer env (build_llm env self) question (chat_history_at env self w)
      = Raise e ->
      exists w',
        generate_answer generate_uuid_from_string env self question w = (Raise e, w') /\
        history w' = history w /\
        filter is_persist (new_events w w') = []) /\
  (forall fuel,
      stream_length (provider_stream env self question w) + 2 <= fuel ->
      exists ys r w',
        drain generate_uuid_from_string env self fuel
              (generate_answer_stream self question) w = Some (ys, r, w') /\
        match r with
        | Ok _ => (exists t, history w' = (history w ++ [t])%list) /\
                  length (filter is_persist (new_events w w')) = 1
        | Raise _ => history w' = history w
        end) /\
  (forall pre e fuel,
      provider_stream env self question w = chunks_then pre (Fail e) ->
      length pre + 2 <= fuel ->
      exists ys w',
        drain generate_uuid_from_string env self fuel
              (generate_answer_stream self question) w = Some (ys, Raise e, w') /\
        history w' = history w /\
        filter is_persist (new_events w w') = []).
Proof.
  split; [|split; [|split]].
  - intros out w' E. apply generate_answer_inv in E.
    destruct E as (resp & t & _ & _ & A & _).
    split; [exists t; apply A|].
    rewrite (appended_new_events _ _ _ _ A). reflexivity.
  - intros e L.
    unfold generate_answer, bind, get_chat_history, chat_llm_answer, bind, emit, lift.
    fold (chat_history_at env self w). simpl. rewrite L.
    eexists; split; [reflexivity|]. split; [reflexivity|].
    rewrite (new_events_app _ _ [EvModelCall question]); reflexivity.
  - intros fuel Hf.
    destruct (drain_total self fuel (generate_answer_stream self question) w)
      as (ys & r & w' & D); [exact Hf|].
    exists ys, r, w'. split; [exact D|].
    apply drain_inv in D. destruct D as (ts & evs & A & _ & _ & Hr).
    rewrite (appended_new_events _ _ _ _ A). destruct A as (_ & H & _).
    destruct r as [u|e].
    + destruct Hr as (Hl & Hp).
      destruct ts as [|t [|t' ts]]; simpl in Hl; try discriminate.
      split; [exists t; exact H | exact Hp].
    + destruct Hr as (-> & _). now rewrite app_nil_r in H.
  - intros pre e fuel Hs Hf.
    destruct fuel as [|fuel]; [lia|].
    destruct (drain_iterate_fail self question
                (get_model env (model_name (model_to_use self)))
                (message_metadata_at env self question w) e pre "" None
                (after_prologue question w) fuel) as (ys & w' & evs & E & A & P);
      [lia|].
    exists ys, w'. split; [rewrite drain_created, Hs; exact E|].
    pose proof (appended_trans _ _ _ _ _ _ _
                  (appended_after_prologue question w) A) as B.
    rewrite (appended_new_events _ _ _ _ B).
    destruct B as (_ & H & _). simpl in H. rewrite app_nil_r in H.
    split; [exact H|]. simpl. exact P.
Qed.

(** C2. Quota resolution runs exactly once per instance, in the constructor,
    before anything a generation does.  For an instance built by [__init__]
    and any sequence of calls made on it afterwards, the events logged since
    construction began are the resolution and its ledger write, followed only
    by events that are not quota events; the constructor itself calls no
    model and stores no turn. *)
Theorem C2_quota_resolved_once_at_construction
        user name chat_id w self w1 ops :
  __init__ env user name chat_id w = (Ok self, w1) ->
  exists cost later,
    new_events w w1
    = [EvResolve (user_id user) name; EvRecordUsage (user_id user) cost] /\
    new_turns w w1 = [] /\
    new_events w (run_ops generate_uuid_from_string env self ops w1)
    = EvResolve (user_id user) name
        :: EvRecordUsage (user_id user) cost :: later /\
    Forall not_quota later.
Proof.
  intros E. apply init_inv in E. destruct E as (H & cost & _ & G & _).
  destruct (run_ops_inv self ops w1) as (ts & evs & (_ & _ & G2) & Q).
  exists cost, evs. split; [apply new_events_app; exact G|].
  split; [apply new_turns_app; now rewrite H, app_nil_r|].
  split; [|exact Q].
  apply new_events_app. rewrite G2, G, <- app_assoc. reflexivity.
Qed.

(** C3. For a model name absent from the user's allow-list, construction
    raises [ModelNotAllowed], the ledger is unchanged, and the only event is
    the entry into the resolution: the ledger write is never reached. *)
Theorem C3_model_not_allowed_leaves_ledger user name chat_id w :
  ~ In name (map model_name (get_models env user)) ->
  exists w',
    __init__ env user name chat_id w = (Raise ModelNotAllowed, w') /\
    ledger w' = ledger w /\
    history w' = history w /\
    new_events w w' = [EvResolve (user_id user) name].
Proof.
  intros H.
  unfold __init__, check_and_update_user_usage, bind, emit, lift, ret; simpl.
  unfold find_model_and_generate_metadata. rewrite (find_absent _ _ H). simpl.
  eexists; split; [reflexivity|]. simpl.
  repeat split. apply new_events_app. reflexivity.
Qed.

(** C4. Streaming completeness.  When the provider sends non-terminal chunks
    and then one terminal chunk, the model description exists and the storage
    accepts the turn, the drained generator ends normally having stored
    exactly one turn, whose answer text is the concatenation of the
    non-terminal texts, or the terminal chunk's text when that concatenation
    is empty. *)
Theorem C4_streaming_completeness self question w pre term md fuel :
  Forall non_terminal pre ->
  last_chunk term = true ->
  provider_stream env self question w = chunks_then pre (Next term Stop) ->
  get_model env (model_name (model_to_use self)) = Some md ->
  (forall h c, storage_fails env h c = false) ->
  length pre + 2 <= fuel ->
  exists ys w' t,
    drain generate_uuid_from_string env self fuel
          (generate_answer_stream self question) w = Some (ys, Ok tt, w') /\
    history w' = (history w ++ [t])%list /\
    ch_assistant t = if buffer pre =? "" then chunk_answer term else buffer pre.
Proof.
  intros Hnt Ht Hs Hm Hst Hf.
  destruct (stream_run_wellformed self question w pre term md fuel
              Hnt Ht Hs Hm Hst Hf) as (t & w' & D & A & S).
  eexists; exists w', t. split; [exact D|]. split; [apply A|].
  destruct S as (_ & _ & -> & _). simpl. apply absorb_terminal; exact Ht.
Qed.

(** C5 (amended).  The record emitted for a non-terminal chunk carries that
    chunk's own text fragment and that chunk's metadata: a consumer that takes
    [k] records while the provider is sending non-terminal chunks receives,
    in order, the records of the first [k] chunks, each holding the text of
    its chunk alone. *)
Theorem C5_partial_record_carries_own_fragment self question w pre tl k :
  Forall non_terminal pre ->
  provider_stream env self question w = chunks_then pre tl ->
  k <= length pre ->
  exists ys g w',
    pull generate_uuid_from_string env self k
         (generate_answer_stream self question) w = (ys, g, w') /\
    ys = partial_lines (message_metadata_at env self question w) (firstn k pre) /\
    map (fun y => assistant (sse_record y)) ys = map chunk_answer (firstn k pre) /\
    map (fun y => out_metadata (sse_record y)) ys
    = map (fun c => ModelDump (chunk_metadata c)) (firstn k pre).
Proof.
  intros Hnt Hs Hk.
  destruct (pull_prefix_run self question w pre tl k Hnt Hs Hk)
    as (g & w' & evs & P & _).
  eexists; exists g, w'. split; [exact P|]. split; [reflexivity|].
  unfold partial_lines; rewrite !map_map; split; reflexivity.
Qed.

(** C6 (amended).  On a well-formed stream the code after the loop calls the
    Answer Persister before it emits the final record, never after.  When a
    description of the model exists, the persister is called exactly once,
    after the last partial record, with the question, the full answer and the
    enricher-merged metadata; when that call returns, the last record is
    emitted next, carrying that full answer and that metadata, and the run
    ends normally; when that call raises, the run ends with
    [PersistenceError] and the final record is not emitted.  When no
    description exists, the run ends with [AttributeError] after the partial
    records: the persister is not called and no final record is emitted. *)
Theorem C6_persist_then_final_record self question w pre term fuel :
  Forall non_terminal pre ->
  last_chunk term = true ->
  provider_stream env self question w = chunks_then pre (Next term Stop) ->
  length pre + 2 <= fuel ->
  let mm := message_metadata_at env self question w in
  let full := absorb_last_chunk (buffer pre) term in
  exists ys r w',
    drain generate_uuid_from_string env self fuel
          (generate_answer_stream self question) w = Some (ys, r, w') /\
    match get_model env (model_name (model_to_use self)) with
    | None =>
        r = Raise AttributeError /\
        ys = partial_lines mm pre /\
        new_events w w' = EvModelCall question :: yield_events mm pre
    | Some md =>
        let final_md := final_metadata generate_uuid_from_string self md term in
        let final := final_record generate_uuid_from_string self md mm full term in
        let c := CreateChatHistory_of self question full (Some final_md) in
        assistant final = full /\
        out_metadata final = ModelDump final_md /\
        length (filter is_persist (new_events w w')) = 1 /\
        if storage_fails env (history w) c then
          r = Raise PersistenceError /\
          ys = partial_lines mm pre /\
          new_events w w'
          = (EvModelCall question :: yield_events mm pre ++ [EvPersist c])%list
        else
          r = Ok tt /\
          ys = (partial_lines mm pre ++ [Data final])%list /\
          last_record ys = Some (Data final) /\
          new_events w w'
          = (EvModelCall question :: yield_events mm pre
               ++ [EvPersist c; EvYield (Data final)])%list
    end.
Proof.
  intros Hnt Ht Hs Hf mm full.
  destruct fuel as [|fuel]; [lia|].
  rewrite drain_created, Hs.
  rewrite (drain_iterate_wellformed _ _ _ _ _ Ht) by (auto; lia).
  cbn [append]. fold mm. fold full.
  pose proof (appended_trans _ _ _ _ _ _ _
                (appended_after_prologue question w)
                (appended_log_append (after_prologue question w)
                   (yield_events mm pre))) as P0.
  destruct (get_model env (model_name (model_to_use self))) as [md|].
  - cbv zeta.
    destruct (storage_fails env (history w)
                (CreateChatHistory_of self question full
                   (Some (final_metadata generate_uuid_from_string self md term))))
      eqn:Hst.
    + rewrite (finalize_storage_down self question md mm full term
                 (log_append (after_prologue question w) (yield_events mm pre))
                 Hst).
      eexists; eexists; eexists. split; [reflexivity|].
      pose proof (appended_trans _ _ _ _ _ _ _ P0
                    (appended_log_append _
                       [EvPersist (CreateChatHistory_of self question full
                          (Some (final_metadata generate_uuid_from_string
                                   self md term)))])) as B.
      rewrite (appended_new_events _ _ _ _ B).
      split; [reflexivity|]. split; [reflexivity|].
      split; [simpl; rewrite filter_app, yield_events_filter_persist; reflexivity|].
      repeat split.
    + destruct (finalize_ok self question md mm full term
                  (log_append (after_prologue question w) (yield_events mm pre))
                  Hst) as (y & w' & F).
      rewrite F. apply finalize_inv in F.
      destruct F as (term' & md' & t & Et & Em & _ & -> & A & _).
      inversion Et; inversion Em; subst term' md'.
      eexists; eexists; exists w'. split; [reflexivity|].
      pose proof (appended_trans _ _ _ _ _ _ _ P0 A) as B.
      rewrite (appended_new_events _ _ _ _ B).
      split; [reflexivity|]. split; [reflexivity|].
      split; [simpl; rewrite filter_app, yield_events_filter_persist; reflexivity|].
      split; [reflexivity|]. split; [reflexivity|].
      split; [apply last_record_snoc | reflexivity].
  - cbn. eexists; eexists; eexists. split; [reflexivity|].
    split; [reflexivity|]. split; [reflexivity|].
    apply (appended_new_events _ _ _ _ P0).
Qed.

(** C8 (amended).  A [generate_answer] call that returns has stored exactly
    one turn.  When the model response carries a metadata object, the
    enricher ran before the persister: the stored metadata is the response's
    with the descriptive block of the resolved model (name, description,
    image reference, display name, synthetic id).  When the response carries
    no metadata, the turn is stored with the empty metadata dict. *)
Theorem C8_sync_enriches_before_persisting self question w out w' :
  generate_answer generate_uuid_from_string env self question w = (Ok out, w') ->
  exists resp t,
    llm_answer env (build_llm env self) question (chat_history_at env self w)
    = Ok resp /\
    history w' = (history w ++ [t])%list /\
    match metadata resp with
    | Some m =>
        exists md,
          get_model env (model_name (model_to_use self)) = Some md /\
          ch_metadata t
          = ModelDump (set_metadata_model m
                         (ChatLLMMetadata_of generate_uuid_from_string self md)) /\
          model_block (ch_metadata t)
          = Some {| cm_name := model_name (model_to_use self);
                    cm_description := Some (model_description md);
                    cm_image_url := Some (model_image_url md);
                    cm_display_name := Some (model_display_name md);
                    cm_brain_id :=
                      Some (str (generate_uuid_from_string
                                   (model_name (model_to_use self))));
                    cm_brain_name := Some (model_name (model_to_use self)) |}
    | None => ch_metadata t = EmptyDict
    end.
Proof.
  intros E. apply generate_answer_inv in E.
  destruct E as (resp & t & L & Hm & A & S & _).
  exists resp, t. split; [exact L|]. split; [apply A|].
  destruct S as (_ & _ & _ & S). rewrite S. unfold sync_metadata; simpl.
  destruct (metadata resp) as [m|]; [|reflexivity].
  destruct (get_model env (model_name (model_to_use self))) as [md|].
  - exists md. repeat split.
  - exfalso. apply Hm; [discriminate | reflexivity].
Qed.

(** C9. Cancellation.  A consumer that takes [k] records, where the provider
    sends at least [k] non-terminal chunks before anything else, and then
    drops the generator, has received [k] records, and no turn was stored
    and the Answer Persister was never called. *)
Theorem C9_cancelled_stream_persists_nothing self question w pre tl k :
  Forall non_terminal pre ->
  provider_stream env self question w = chunks_then pre tl ->
  k <= length pre ->
  exists ys g w',
    pull generate_uuid_from_string env self k
         (generate_answer_stream self question) w = (ys, g, w') /\
    length ys = k /\
    new_turns w (snd (aclose g w')) = [] /\
    existsb is_persist (new_events w (snd (aclose g w'))) = false.
Proof.
  intros Hnt Hs Hk.
  destruct (pull_prefix_run self question w pre tl k Hnt Hs Hk)
    as (g & w' & evs & P & A & N).
  eexists; exists g, w'. split; [exact P|].
  split; [unfold partial_lines; rewrite length_map, length_firstn; lia|].
  simpl. rewrite (appended_new_turns _ _ _ _ A), (appended_new_events _ _ _ _ A).
  auto.
Qed.

(** C10. When the provider's sequence is empty, the first [anext] raises
    [UnboundLocalError] (the loop variable was never bound): no record is
    emitted, no turn is stored, and the Answer Persister is not called. *)
Theorem C10_empty_stream_raises_unbound self question w fuel :
  provider_stream env self question w = Stop ->
  1 <= fuel ->
  exists w',
    drain generate_uuid_from_string env self fuel
          (generate_answer_stream self question) w
    = Some ([], Raise UnboundLocalError, w') /\
    new_turns w w' = [] /\
    new_events w w' = [EvModelCall question].
Proof.
  intros Hs Hf. destruct fuel as [|fuel]; [lia|].
  rewrite drain_created, Hs. cbn.
  eexists; split; [reflexivity|].
  split; [apply new_turns_app | apply new_events_app]; simpl;
    [now rewrite app_nil_r | reflexivity].
Qed.

End Facts.

(** C7. The synthetic id is a function of the model name alone.  Take any two
    calls, each a [generate_answer] or a [generate_answer_stream] consumed for
    any number of records, on any two instances, with any collaborators and in
    any worlds: when the two instances hold the same model name, any
    synthetic ids the stored turns carry are equal, and equal to
    [str (generate_uuid_from_string name)]. *)
Theorem C7_synthetic_id_function_of_name
        (generate_uuid_from_string : string -> UUID)
        (env1 env2 : Collaborators) (self1 self2 : ChatLLMService)
        (op1 op2 : Op) (w1 w2 : World) (t1 t2 : ChatHistory) (id1 id2 : string) :
  model_name (model_to_use self1) = model_name (model_to_use self2) ->
  In t1 (new_turns w1 (run_op generate_uuid_from_string env1 self1 op1 w1)) ->
  In t2 (new_turns w2 (run_op generate_uuid_from_string env2 self2 op2 w2)) ->
  synthetic_id t1 = Some id1 ->
  synthetic_id t2 = Some id2 ->
  id1 = id2 /\
  id1 = str (generate_uuid_from_string (model_name (model_to_use self1))).
Proof.
  intros Hn H1 H2 I1 I2.
  pose proof (run_op_ids _ _ _ _ _ _ _ H1 I1) as E1.
  pose proof (run_op_ids _ _ _ _ _ _ _ H2 I2) as E2.
  rewrite <- Hn in E2. split; congruence.
Qed.

(** ** The claims on the scenario *)

Import Scenario.

Lemma C1_witness :
  (exists t,
      history (snd (generate_answer uuid_of_name env_plain service question
                      empty_world)) = [t]) /\
  (exists w',
      generate_answer uuid_of_name env_failing service question empty_world
      = (Raise InvocationError, w') /\ history w' = []) /\
  (exists ys w' t,
      drain uuid_of_name env_stream service 5
            (generate_answer_stream service question) empty_world
      = Some (ys, Ok tt, w') /\ history w' = [t]) /\
  (exists ys w',
      drain uuid_of_name env_failing service 3
            (generate_answer_stream service question) empty_world
      = Some (ys, Raise InvocationError, w') /\ history w' = []).
Proof.
  split; [|split; [|split]].
  - destruct (C1_exactly_once_persistence uuid_of_name env_plain service
                question empty_world) as (A & _).
    destruct (A _ _ eq_refl) as ((t & Ht) & _). exists t. exact Ht.
  - destruct (C1_exactly_once_persistence uuid_of_name env_failing service
                question empty_world) as (_ & B & _).
    destruct (B InvocationError eq_refl) as (w' & E & H & _).
    exists w'. split; [exact E | exact H].
  - destruct (C1_exactly_once_persistence uuid_of_name env_stream service
                question empty_world) as (_ & _ & C & _).
    destruct (C 5 ltac:(vm_compute; lia)) as (ys & r & w' & D & Hr).
    vm_compute in D. inversion D; subst; clear D.
    destruct Hr as ((t & Ht) & _). eexists; eexists; exists t.
    split; [reflexivity | exact Ht].
  - destruct (C1_exactly_once_persistence uuid_of_name env_failing service
                question empty_world) as (_ & _ & _ & D).
    destruct (D [chunk "a" false] InvocationError 3 eq_refl
                ltac:(vm_compute; lia)) as (ys & w' & E & H & _).
    exists ys, w'. split; [exact E | exact H].
Defined.

Lemma C2_witness :
  __init__ env_stream alice "model-x" "chat-1" empty_world
  = (Ok service, constructed_world) /\
  exists cost later,
    new_events empty_world constructed_world
    = [EvResolve "alice" "model-x"; EvRecordUsage "alice" cost] /\
    new_turns empty_world constructed_world = [] /\
    new_events empty_world
      (run_ops uuid_of_name env_stream service
               [CallGenerate question; CallStream question 2; CallStream question 9]
               constructed_world)
    = EvResolve "alice" "model-x" :: EvRecordUsage "alice" cost :: later /\
    Forall not_quota later.
Proof.
  split; [reflexivity|].
  exact (C2_quota_resolved_once_at_construction uuid_of_name env_stream
           alice "model-x" "chat-1" empty_world service constructed_world
           [CallGenerate question; CallStream question 2; CallStream question 9]
           eq_refl).
Defined.

Lemma C3_witness :
  ~ In "model-y" (map model_name (get_models env_stream alice)) /\
  exists w',
    __init__ env_stream alice "model-y" "chat-1" empty_world
    = (Raise ModelNotAllowed, w') /\
    ledger w' = ledger empty_world /\
    history w' = history empty_world /\
    new_events empty_world w' = [EvResolve "alice" "model-y"].
Proof.
  assert (H : ~ In "model-y" (map model_name (get_models env_stream alice)))
    by (simpl; intros [E|[]]; discriminate E).
  split; [exact H|].
  exact (C3_model_not_allowed_leaves_ledger env_stream alice "model-y" "chat-1"
           empty_world H).
Defined.

Lemma C4_witness :
  Forall non_terminal [chunk "a" false; chunk "b" false] /\
  exists ys w' t,
    drain uuid_of_name env_stream service 4
          (generate_answer_stream service question) empty_world
    = Some (ys, Ok tt, w') /\
    history w' = (history empty_world ++ [t])%list /\
    ch_assistant t = "ab".
Proof.
  assert (H : Forall non_terminal [chunk "a" false; chunk "b" false])
    by (repeat constructor).
  split; [exact H|].
  exact (C4_streaming_completeness uuid_of_name env_stream service question
           empty_world [chunk "a" false; chunk "b" false] (chunk "" true)
           model_x 4 H eq_refl eq_refl eq_refl (fun _ _ => eq_refl)
           (le_n 4)).
Defined.

(** The claim as the specification words it fails on the second chunk: the
    record emitted for ["b"] holds ["b"], not the buffer ["ab"]. *)
Lemma C5_counterexample :
  ~ partial_records_cumulative
      (fst (fst (pull uuid_of_name env_stream service 2
                      (generate_answer_stream service question) empty_world)))
      [chunk "a" false; chunk "b" false].
Proof.
  intros H. specialize (H 1 (le_n 2)). vm_compute in H. discriminate H.
Qed.

Lemma C5_witness :
  Forall non_terminal [chunk "a" false; chunk "b" false] /\
  exists ys g w',
    pull uuid_of_name env_stream service 2
         (generate_answer_stream service question) empty_world = (ys, g, w') /\
    map (fun y => assistant (sse_record y)) ys = ["a"; "b"].
Proof.
  assert (H : Forall non_terminal [chunk "a" false; chunk "b" false])
    by (repeat constructor).
  split; [exact H|].
  destruct (C5_partial_record_carries_own_fragment uuid_of_name env_stream
              service question empty_world
              [chunk "a" false; chunk "b" false] (Next (chunk "" true) Stop) 2
              H eq_refl (le_n 2)) as (ys & g & w' & P & _ & A & _).
  exists ys, g, w'. split; [exact P | exact A].
Defined.

(** On the scenario the final record is emitted after the Answer Persister
    was called, not before. *)
Lemma C6_counterexample :
  exists ys w',
    drain uuid_of_name env_stream service 4
          (generate_answer_stream service question) empty_world
    = Some (ys, Ok tt, w') /\
    ~ final_emitted_before_persist ys (new_events empty_world w').
Proof.
  eexists; eexists; split; [vm_compute; reflexivity|].
  intros (y & Hl & Hin). vm_compute in Hl. inversion Hl; subst; clear Hl.
  vm_compute in Hin.
  destruct Hin as [E|[E|[E|[]]]]; discriminate E.
Qed.

Lemma C6_witness :
  Forall non_terminal [chunk "a" false; chunk "b" false] /\
  exists ys w',
    drain uuid_of_name env_stream service 4
          (generate_answer_stream service question) empty_world
    = Some (ys, Ok tt, w') /\
    option_map (fun y => assistant (sse_record y)) (last_record ys) = Some "ab" /\
    length (filter is_persist (new_events empty_world w')) = 1.
Proof.
  assert (H : Forall non_terminal [chunk "a" false; chunk "b" false])
    by (repeat constructor).
  split; [exact H|].
  destruct (C6_persist_then_final_record uuid_of_name env_stream service
              question empty_world [chunk "a" false; chunk "b" false]
              (chunk "" true) 4 H eq_refl eq_refl (le_n 4))
    as (ys & r & w' & D & _ & _ & N & -> & _ & L & _).
  exists ys, w'. split; [exact D|]. split; [|exact N].
  rewrite L. reflexivity.
Defined.

Lemma C7_witness :
  In (stored_turn "4" 0)
     (new_turns empty_world
        (run_op uuid_of_name env_metadata service (CallGenerate question)
                empty_world)) /\
  In (stored_turn "ab" 1)
     (new_turns constructed_world
        (run_op uuid_of_name env_stream service (CallStream question 3)
                constructed_world)) /\
  "uuid-of-model-x" = str (uuid_of_name "model-x").
Proof.
  assert (H1 : In (stored_turn "4" 0)
                  (new_turns empty_world
                     (run_op uuid_of_name env_metadata service
                             (CallGenerate question) empty_world)))
    by (left; reflexivity).
  assert (H2 : In (stored_turn "ab" 1)
                  (new_turns constructed_world
                     (run_op uuid_of_name env_stream service
                             (CallStream question 3) constructed_world)))
    by (left; reflexivity).
  split; [exact H1|]. split; [exact H2|].
  exact (proj2 (C7_synthetic_id_function_of_name uuid_of_name
                  env_metadata env_stream service service
                  (CallGenerate question) (CallStream question 3)
                  empty_world constructed_world
                  (stored_turn "4" 0) (stored_turn "ab" 1)
                  "uuid-of-model-x" "uuid-of-model-x"
                  eq_refl H1 H2 eq_refl eq_refl)).
Defined.

(** A response without metadata is stored with the empty metadata dict: the
    turn carries no descriptive model block. *)
Lemma C8_counterexample :
  exists out w',
    generate_answer uuid_of_name env_plain service question empty_world
    = (Ok out, w') /\
    ~ turns_have_model_block (new_turns empty_world w').
Proof.
  eexists; eexists; split; [vm_compute; reflexivity|].
  intros H. inversion H as [|t ts Ht _]; subst. apply Ht. reflexivity.
Qed.

Lemma C8_witness :
  exists out w',
    generate_answer uuid_of_name env_metadata service question empty_world
    = (Ok out, w') /\
    exists t, history w' = [t] /\ model_block (ch_metadata t) = Some block_x.
Proof.
  eexists; eexists; split; [vm_compute; reflexivity|].
  destruct (C8_sync_enriches_before_persisting uuid_of_name env_metadata
              service question empty_world _ _ eq_refl)
    as (resp & t & L & Hh & Hm).
  vm_compute in L. inversion L; subst; clear L.
  destruct Hm as (md & G & _ & B).
  vm_compute in G. inversion G; subst; clear G.
  exists t. split; [exact Hh | exact B].
Defined.

Lemma C9_witness :
  Forall non_terminal [chunk "a" false; chunk "b" false] /\
  exists ys g w',
    pull uuid_of_name env_stream service 2
         (generate_answer_stream service question) empty_world = (ys, g, w') /\
    length ys = 2 /\
    new_turns empty_world (snd (aclose g w')) = [] /\
    existsb is_persist (new_events empty_world (snd (aclose g w'))) = false.
Proof.
  assert (H : Forall non_terminal [chunk "a" false; chunk "b" false])
    by (repeat constructor).
  split; [exact H|].
  exact (C9_cancelled_stream_persists_nothing uuid_of_name env_stream service
           question empty_world [chunk "a" false; chunk "b" false]
           (Next (chunk "" true) Stop) 2 H eq_refl (le_n 2)).
Defined.

Lemma C10_witness :
  provider_stream env_plain service question empty_world = Stop /\
  exists w',
    drain uuid_of_name env_plain service 1
          (generate_answer_stream service question) empty_world
    = Some ([], Raise UnboundLocalError, w') /\
    new_turns empty_world w' = [] /\
    new_events empty_world w' = [EvModelCall question].
Proof.
  split; [reflexivity|].
  exact (C10_empty_stream_raises_unbound uuid_of_name env_plain service
           question empty_world 1 eq_refl (le_n 1)).
Defined.

(** ** The source functions on the scenario *)

Example build_llm_local_endpoint :
  llm_config (build_llm env_ollama ollama_service)
  = {| cfg_model := "ollama/llama3";
       cfg_llm_base_url := Some "http://localhost:11434";
       cfg_llm_api_key := Some "abc-123";
       cfg_temperature := "0.7";
       cfg_max_input := 2000;
       cfg_max_tokens := 500 |}.
Proof. reflexivity. Qed.

Example build_llm_hosted_model :
  cfg_llm_base_url (llm_config (build_llm env_ollama service)) = None /\
  cfg_llm_api_key (llm_config (build_llm env_ollama service)) = None.
Proof. split; reflexivity. Qed.

Example init_quota_exceeded :
  __init__ env_plain alice "model-x" "chat-1" exhausted_world
  = (Raise QuotaExceeded, log_append exhausted_world [EvResolve "alice" "model-x"]).
Proof. reflexivity. Qed.

Example all_text_in_terminal_chunk :
  match drain uuid_of_name env_terminal_only service 4
              (generate_answer_stream service question) empty_world with
  | Some (ys, r, w') =>
      (map (fun y => assistant (sse_record y)) ys, r, map ch_assistant (history w'))
  | None => ([], Raise InvocationError, [])
  end = ([""; "4"], Ok tt, ["4"]).
Proof. reflexivity. Qed.

Example sync_answer_scenario :
  match generate_answer uuid_of_name env_metadata service question empty_world with
  | (Ok out, w') =>
      (assistant out, option_map cm_name (model_block (out_metadata out)),
       history w')
  | (Raise _, _) => ("", None, [])
  end = ("4", Some "model-x", [stored_turn "4" 0]).
Proof. reflexivity. Qed.

(** ** The stream as a function of the provider's sequence *)

Lemma stream_decompose (s : AStream) :
  exists cs, s = chunks_then cs Stop \/ exists e, s = chunks_then cs (Fail e).
Proof.
  induction s as [|e|c s (cs & IH)].
  - exists []; left; reflexivity.
  - exists []; right; exists e; reflexivity.
  - exists (c :: cs). destruct IH as [->|(e & ->)]; [left | right; exists e];
      reflexivity.
Qed.

Lemma stream_length_chunks_then cs tl :
  stream_length (chunks_then cs tl) = length cs + stream_length tl.
Proof. induction cs as [|c cs IH]; simpl; [reflexivity | now rewrite IH]. Qed.

Lemma emitted_length_le cs : length (emitted cs) <= length cs.
Proof. apply filter_length_le. Qed.

Lemma emitted_non_terminal cs : Forall non_terminal cs -> emitted cs = cs.
Proof.
  induction 1 as [|c cs Hc _ IH]; [reflexivity|].
  unfold emitted in *; simpl. rewrite Hc; simpl. now rewrite IH.
Qed.

Lemma accumulate_non_terminal cs :
  Forall non_terminal cs ->
  forall fa, accumulate fa cs = (fa ++ buffer cs)%string.
Proof.
  induction 1 as [|c cs Hc _ IH]; intros fa; simpl.
  - now rewrite string_app_nil_r.
  - unfold absorb_chunk. rewrite Hc, (absorb_non_terminal _ _ Hc), IH.
    apply string_app_assoc.
Qed.

Lemma last_response_nonempty resp c cs :
  exists r, last_response resp (c :: cs) = Some r /\ In r (c :: cs).
Proof.
  revert resp c. induction cs as [|c' cs IH]; intros resp c.
  - exists c; simpl; auto.
  - destruct (IH (Some c) c') as (r & E & Hin).
    exists r. split; [exact E | right; exact Hin].
Qed.

Section StreamFunction.

Variable generate_uuid_from_string : string -> UUID.
Variable env : Collaborators.

(** Draining a generator whose provider sends the chunks [cs] and ends
    normally: one record for each chunk without the terminal flag, then the
    code after the loop, run once on the accumulated buffer and the last
    chunk received. *)
Lemma drain_iterate_stop self question mmd mm :
  forall cs fa resp w fuel,
    length (emitted cs) < fuel ->
    on_outcome (drain generate_uuid_from_string env self fuel)
      (run_body (iterate generate_uuid_from_string env self question mmd mm
                   fa resp (chunks_then cs Stop)) w)
    = match finalize generate_uuid_from_string env self question mmd mm
              (accumulate fa cs) (last_response resp cs)
              (log_append w (yield_events mm (emitted cs))) with
      | (Ok (y, _), w') =>
          Some ((partial_lines mm (emitted cs) ++ [y])%list, Ok tt, w')
      | (Raise e, w') => Some (partial_lines mm (emitted cs), Raise e, w')
      end.
Proof.
  induction cs as [|c cs IH]; intros fa resp w fuel Hf.
  - cbn [chunks_then iterate accumulate last_response emitted filter
           yield_events partial_lines map].
    rewrite log_append_nil. unfold run_body.
    destruct (finalize _ _ _ _ _ _ _ _ w) as [[[y g]|e] w1] eqn:F; [|reflexivity].
    apply finalize_inv in F. destruct F as (? & ? & ? & _ & _ & -> & _).
    unfold on_outcome. destruct fuel; [simpl in Hf; lia | reflexivity].
  - cbn [chunks_then iterate accumulate last_response].
    unfold emitted in *. cbn [filter] in Hf |- *. unfold absorb_chunk.
    revert Hf. destruct (last_chunk c) eqn:Hc; cbn [negb]; intros Hf.
    + apply IH. exact Hf.
    + unfold run_body, bind, emit, ret. cbn [on_outcome].
      destruct fuel as [|fuel]; [simpl in Hf; lia|].
      cbn [drain anext]. unfold resume; cbn [fr_question fr_model_metadata
        fr_message_metadata fr_full_answer fr_response fr_stream].
      rewrite IH by (simpl in Hf; lia).
      rewrite log_append_app.
      cbn [yield_events partial_lines map app].
      destruct (finalize _ _ _ _ _ _ _ _ _) as [[[y g]|e] w1]; reflexivity.
Qed.

(** The same when the provider raises after [cs]: the records of the chunks
    without the terminal flag, then the provider's exception. *)
Lemma drain_iterate_raise self question mmd mm e :
  forall cs fa resp w fuel,
    length (emitted cs) <= fuel ->
    on_outcome (drain generate_uuid_from_string env self fuel)
      (run_body (iterate generate_uuid_from_string env self question mmd mm
                   fa resp (chunks_then cs (Fail e))) w)
    = Some (partial_lines mm (emitted cs), Raise e,
            log_append w (yield_events mm (emitted cs))).
Proof.
  induction cs as [|c cs IH]; intros fa resp w fuel Hf.
  - cbn. now rewrite log_append_nil.
  - cbn [chunks_then iterate]. unfold emitted in *. cbn [filter] in Hf |- *.
    revert Hf. destruct (last_chunk c) eqn:Hc; cbn [negb]; intros Hf.
    + apply IH. exact Hf.
    + unfold run_body, bind, emit, ret. cbn [on_outcome].
      destruct fuel as [|fuel]; [simpl in Hf; lia|].
      cbn [drain anext]. unfold resume; cbn [fr_question fr_model_metadata
        fr_message_metadata fr_full_answer fr_response fr_stream].
      rewrite IH by (simpl in Hf; lia).
      rewrite log_append_app. reflexivity.
Qed.

(** The whole run of a stream whose provider ends normally after [cs]. *)
Lemma stream_run_stop self question w cs fuel :
  provider_stream env self question w = chunks_then cs Stop ->
  length (emitted cs) + 2 <= fuel ->
  let mm := message_metadata_at env self question w in
  drain generate_uuid_from_string env self fuel
        (generate_answer_stream self question) w
  = match finalize generate_uuid_from_string env self question
            (get_model env (model_name (model_to_use self))) mm
            (accumulate "" cs) (last_response None cs)
            (log_append (after_prologue question w)
                        (yield_events mm (emitted cs))) with
    | (Ok (y, _), w') =>
        Some ((partial_lines mm (emitted cs) ++ [y])%list, Ok tt, w')
    | (Raise e, w') => Some (partial_lines mm (emitted cs), Raise e, w')
    end.
Proof.
  intros Hs Hf mm. destruct fuel as [|fuel]; [lia|].
  rewrite drain_created, Hs. apply drain_iterate_stop. lia.
Qed.

(** The whole run of a stream whose provider raises after [cs]. *)
Lemma stream_run_raise self question w cs e fuel :
  provider_stream env self question w = chunks_then cs (Fail e) ->
  length (emitted cs) + 1 <= fuel ->
  let mm := message_metadata_at env self question w in
  drain generate_uuid_from_string env self fuel
        (generate_answer_stream self question) w
  = Some (partial_lines mm (emitted cs), Raise e,
          log_append (after_prologue question w)
                     (yield_events mm (emitted cs))).
Proof.
  intros Hs Hf mm. destruct fuel as [|fuel]; [lia|].
  rewrite drain_created, Hs. apply drain_iterate_raise. lia.
Qed.

Lemma appended_stream_prefix question w mm cs :
  appended w (log_append (after_prologue question w) (yield_events mm cs)) []
           (EvModelCall question :: yield_events mm cs).
Proof.
  apply (appended_trans _ _ _ _ _ _ _
           (appended_after_prologue question w) (appended_log_append _ _)).
Qed.

Lemma drain_mono self :
  forall fuel g w x,
    drain generate_uuid_from_string env self fuel g w = Some x ->
    forall fuel', fuel <= fuel' ->
                  drain generate_uuid_from_string env self fuel' g w = Some x.
Proof.
  induction fuel as [|fuel IH]; intros g w x H fuel' Hle; [discriminate|].
  destruct fuel' as [|fuel']; [lia|].
  simpl in *. unfold on_outcome in *.
  destruct (anext generate_uuid_from_string env self g w) as [[[y| |e] g1] w1];
    try exact H.
  destruct (drain generate_uuid_from_string env self fuel g1 w1)
    as [[[ys r] w2]|] eqn:D; [|discriminate].
  rewrite (IH _ _ _ D fuel') by lia. exact H.
Qed.

(** *** The synchronous call, outcome by outcome *)

Lemma generate_answer_cases self question w :
  let c resp := CreateChatHistory_of self question (answer resp)
                  (sync_metadata generate_uuid_from_string env self resp) in
  match llm_answer env (build_llm env self) question (chat_history_at env self w) with
  | Raise e =>
      generate_answer generate_uuid_from_string env self question w
      = (Raise e, log_append w [EvModelCall question])
  | Ok resp =>
      match metadata resp, get_model env (model_name (model_to_use self)) with
      | Some _, None =>
          generate_answer generate_uuid_from_string env self question w
          = (Raise AttributeError, log_append w [EvModelCall question])
      | _, _ =>
          if storage_fails env (history w) (c resp) then
            generate_answer generate_uuid_from_string env self question w
            = (Raise PersistenceError,
               log_append w [EvModelCall question; EvPersist (c resp)])
          else
            exists t w',
              generate_answer generate_uuid_from_string env self question w
              = (Ok {| chat_id := svc_chat_id self;
                       message_id := ch_message_id t;
                       user_message := question;
                       assistant := answer resp;
                       message_time := ch_message_time t;
                       prompt_title := None;
                       brain_name := None;
                       brain_id := None;
                       out_metadata := cch_metadata (c resp) |}, w') /\
              appended w w' [t] [EvModelCall question; EvPersist (c resp)] /\
              stores (c resp) t
      end
  end.
Proof.
  intros c.
  unfold generate_answer, bind, get_chat_history, chat_llm_answer, bind, emit, lift.
  fold (chat_history_at env self w). simpl.
  destruct (llm_answer env (build_llm env self) question (chat_history_at env self w))
    as [resp|e0]; [|reflexivity].
  subst c. unfold sync_metadata in *.
  destruct resp as [text [m|]]; simpl in *.
  - destruct (get_model env (model_name (model_to_use self))) as [md|]; simpl;
      [|reflexivity].
    unfold ret; rewrite save_answer_eq.
    destruct (storage_fails env (history w) _) eqn:Hs.
    + rewrite (update_chat_history_fails env _
                 (log_append w [EvModelCall question]) Hs),
        log_append_app.
      reflexivity.
    + destruct (update_chat_history_ok env _ (log_append w [EvModelCall question]) Hs)
        as (t & w' & U).
      rewrite U. apply update_chat_history_inv in U. destruct U as (A & S & _).
      exists t, w'. split; [reflexivity|]. split; [|exact S].
      apply (appended_trans _ _ _ _ _ _ _ (appended_log_append _ _) A).
  - unfold ret; rewrite save_answer_eq.
    destruct (storage_fails env (history w) _) eqn:Hs.
    + rewrite (update_chat_history_fails env _
                 (log_append w [EvModelCall question]) Hs),
        log_append_app.
      reflexivity.
    + destruct (update_chat_history_ok env _ (log_append w [EvModelCall question]) Hs)
        as (t & w' & U).
      rewrite U. apply update_chat_history_inv in U. destruct U as (A & S & _).
      exists t, w'. split; [reflexivity|]. split; [|exact S].
      apply (appended_trans _ _ _ _ _ _ _ (appended_log_append _ _) A).
Qed.

End StreamFunction.

(** ** Further properties of the service *)

(** X1. [build_llm] couples the endpoint override and the placeholder
    credential: the key is ["abc-123"] exactly when a base URL is set and
    absent exactly when none is; a base URL is set exactly when the settings
    hold a non-empty Ollama URL and the model name starts with ["ollama"],
    and it is then that URL. *)
Theorem X1_build_llm_endpoint_and_credential
        (env : Collaborators) (self : ChatLLMService) :
  let cfg := llm_config (build_llm env self) in
  (cfg_llm_api_key cfg = Some "abc-123" <-> cfg_llm_base_url cfg <> None) /\
  (cfg_llm_api_key cfg = None <-> cfg_llm_base_url cfg = None) /\
  (forall url,
      cfg_llm_base_url cfg = Some url <->
      ollama_api_base_url env = Some url /\ url <> "" /\
      String.prefix "ollama" (model_name (model_to_use self)) = true).
Proof.
  unfold build_llm; cbn [llm_config cfg_llm_api_key cfg_llm_base_url].
  destruct (ollama_api_base_url env) as [u|]; cbn [truthy].
  - destruct (String.eqb_spec u "") as [E|E]; cbn [negb andb].
    + repeat split; try discriminate; try congruence.
      intros (H1 & H2 & _). inversion H1; subst. congruence.
    + destruct (String.prefix "ollama" (model_name (model_to_use self)));
        cbn [truthy].
      * destruct (String.eqb_spec u "") as [E'|_]; [congruence|]. cbn [negb].
        repeat split; try discriminate; try congruence.
        intros (H1 & _). exact H1.
      * repeat split; try discriminate; try congruence.
        intros (_ & _ & H). discriminate H.
  - cbn [andb truthy]. repeat split; try discriminate; try congruence.
    intros (H & _). discriminate H.
Qed.

Lemma X1_witness :
  cfg_llm_base_url (llm_config (build_llm Scenario.env_ollama Scenario.ollama_service))
  = Some "http://localhost:11434" /\
  cfg_llm_api_key (llm_config (build_llm Scenario.env_ollama Scenario.ollama_service))
  = Some "abc-123".
Proof.
  destruct (X1_build_llm_endpoint_and_credential
              Scenario.env_ollama Scenario.ollama_service) as (K & _ & U).
  assert (B : cfg_llm_base_url
                (llm_config (build_llm Scenario.env_ollama Scenario.ollama_service))
              = Some "http://localhost:11434").
  { apply U. split; [reflexivity|]. split; [discriminate | reflexivity]. }
  split; [exact B|]. apply K. rewrite B. discriminate.
Defined.

Section Extras.

Variable generate_uuid_from_string : string -> UUID.
Variable env : Collaborators.

(** The four ways a [generate_answer] call ends. *)
Lemma generate_answer_outcomes self question w :
  let c resp := CreateChatHistory_of self question (answer resp)
                  (sync_metadata generate_uuid_from_string env self resp) in
  let call := generate_answer generate_uuid_from_string env self question w in
  let reply := llm_answer env (build_llm env self) question
                          (chat_history_at env self w) in
  (exists e, reply = Raise e /\
             call = (Raise e, log_append w [EvModelCall question])) \/
  (exists resp, reply = Ok resp /\ metadata resp <> None /\
                get_model env (model_name (model_to_use self)) = None /\
                call = (Raise AttributeError,
                        log_append w [EvModelCall question])) \/
  (exists resp, reply = Ok resp /\
                storage_fails env (history w) (c resp) = true /\
                call = (Raise PersistenceError,
                        log_append w [EvModelCall question;
                                      EvPersist (c resp)])) \/
  (exists resp t out w',
      reply = Ok resp /\
      storage_fails env (history w) (c resp) = false /\
      call = (Ok out, w') /\
      appended w w' [t] [EvModelCall question; EvPersist (c resp)] /\
      stores (c resp) t /\
      out_metadata out = cch_metadata (c resp)).
Proof.
  intros c call reply. subst c call reply.
  pose proof (generate_answer_cases generate_uuid_from_string env
                self question w) as C. cbv zeta in C.
  destruct (llm_answer env (build_llm env self) question (chat_history_at env self w))
    as [resp|e]; [|left; eauto].
  right.
  destruct (metadata resp) as [m|] eqn:Hm;
    destruct (get_model env (model_name (model_to_use self))) as [md|] eqn:Hg;
    try (left; exists resp; rewrite Hm; repeat split;
         [discriminate | exact C]);
    right;
    (destruct (storage_fails env (history w) _) eqn:Hs;
     [left; exists resp; auto
     |right; destruct C as (t & w' & E & A & S);
      exists resp, t; eexists; exists w'; rewrite E; auto 10]).
Qed.

(** X2. What [generate_answer] returns describes the turn it stored: same
    chat id, turn id, question, answer text, timestamp and metadata; the chat
    id is the instance's, the question the caller's, and the title and brain
    fields are [None]. *)
Theorem X2_sync_return_matches_stored_turn self question w out w' :
  generate_answer generate_uuid_from_string env self question w = (Ok out, w') ->
  exists t,
    history w' = (history w ++ [t])%list /\
    chat_id out = ch_chat_id t /\
    message_id out = ch_message_id t /\
    user_message out = ch_user_message t /\
    assistant out = ch_assistant t /\
    message_time out = ch_message_time t /\
    out_metadata out = ch_metadata t /\
    chat_id out = svc_chat_id self /\
    user_message out = question /\
    prompt_title out = None /\ brain_name out = None /\ brain_id out = None.
Proof.
  intros H. pose proof (generate_answer_cases generate_uuid_from_string env
                          self question w) as C. cbv zeta in C.
  destruct (llm_answer env (build_llm env self) question (chat_history_at env self w))
    as [resp|e]; [|rewrite C in H; discriminate].
  assert (K : (if storage_fails env (history w)
                    (CreateChatHistory_of self question (answer resp)
                       (sync_metadata generate_uuid_from_string env self resp))
               then False
               else exists t w1,
                   (Ok out, w') =
                   (Ok {| chat_id := svc_chat_id self;
                          message_id := ch_message_id t;
                          user_message := question;
                          assistant := answer resp;
                          message_time := ch_message_time t;
                          prompt_title := None;
                          brain_name := None;
                          brain_id := None;
                          out_metadata :=
                            cch_metadata
                              (CreateChatHistory_of self question (answer resp)
                                 (sync_metadata generate_uuid_from_string env
                                    self resp)) |}, w1) /\
                   appended w w1 [t]
                     [EvModelCall question;
                      EvPersist (CreateChatHistory_of self question (answer resp)
                                   (sync_metadata generate_uuid_from_string env
                                      self resp))] /\
                   stores (CreateChatHistory_of self question (answer resp)
                             (sync_metadata generate_uuid_from_string env self
                                resp)) t)).
  { destruct (metadata resp) as [m|];
      destruct (get_model env (model_name (model_to_use self))) as [md|];
      try (rewrite C in H; discriminate);
      destruct (storage_fails env (history w) _);
      try (rewrite C in H; discriminate);
      destruct C as (t & w1 & E & A & S); exists t, w1; rewrite <- H, E; auto. }
  destruct (storage_fails env (history w) _); [contradiction|].
  destruct K as (t & w1 & E & A & S). inversion E; subst; clear E.
  destruct S as (S1 & S2 & S3 & S4). exists t. simpl.
  rewrite S1, S2, S3, S4. simpl.
  repeat split; try reflexivity. apply A.
Qed.

(** X3. The calls never touch the usage ledger: after any sequence of
    [generate_answer] and [generate_answer_stream] calls on an instance, the
    ledger is what it was when the sequence began. *)
Theorem X3_calls_leave_ledger self ops w :
  ledger (run_ops generate_uuid_from_string env self ops w) = ledger w.
Proof.
  destruct (run_ops_inv generate_uuid_from_string env self ops w)
    as (ts & evs & (L & _) & _).
  exact L.
Qed.

(** X4. [generate_answer] asks the model exactly once, as its first effect,
    whatever the outcome: the events of a call are the model call, followed
    by at most the one persister call. *)
Theorem X4_sync_asks_model_once self question w :
  exists rest,
    new_events w (snd (generate_answer generate_uuid_from_string env self question w))
    = EvModelCall question :: rest /\
    filter is_model_call rest = [] /\
    (rest = [] \/ exists c, rest = [EvPersist c]).
Proof.
  destruct (generate_answer_outcomes self question w)
    as [(e & _ & E)|[(resp & _ & _ & _ & E)|[(resp & _ & _ & E)
       |(resp & t & out & w' & _ & _ & E & A & _)]]];
    cbv zeta in E; rewrite E; simpl.
  - exists []. rewrite (new_events_app _ _ [EvModelCall question]); auto.
  - exists []. rewrite (new_events_app _ _ [EvModelCall question]); auto.
  - eexists. split; [apply new_events_app; simpl; reflexivity|].
    split; [reflexivity | right; eexists; reflexivity].
  - rewrite (appended_new_events _ _ _ _ A). eexists.
    split; [reflexivity|]. split; [reflexivity | right; eexists; reflexivity].
Qed.

(** X5. A missing model description only matters when there is metadata to
    enrich.  When the model service knows no description for the model, a
    response that carries metadata makes [generate_answer] raise
    [AttributeError] after the model call and before the persister; a
    response without metadata is stored and returned, with empty metadata. *)
Theorem X5_sync_missing_description self question w resp :
  llm_answer env (build_llm env self) question (chat_history_at env self w)
  = Ok resp ->
  get_model env (model_name (model_to_use self)) = None ->
  match metadata resp with
  | Some _ =>
      generate_answer generate_uuid_from_string env self question w
      = (Raise AttributeError, log_append w [EvModelCall question])
  | None =>
      storage_fails env (history w)
        (CreateChatHistory_of self question (answer resp) None) = false ->
      exists out w' t,
        generate_answer generate_uuid_from_string env self question w
        = (Ok out, w') /\
        history w' = (history w ++ [t])%list /\
        ch_assistant t = answer resp /\
        ch_metadata t = EmptyDict /\
        out_metadata out = EmptyDict
  end.
Proof.
  intros L G.
  pose proof (generate_answer_cases generate_uuid_from_string env
                self question w) as C. cbv zeta in C.
  rewrite L, G in C. unfold sync_metadata in C.
  destruct (metadata resp) as [m|]; [exact C|].
  intros Hs. simpl in C. rewrite Hs in C.
  destruct C as (t & w' & E & A & S).
  eexists; exists w', t. split; [exact E|]. split; [apply A|].
  destruct S as (_ & _ & S3 & S4). auto.
Qed.

(** X6. When the storage refuses the turn, [generate_answer] raises
    [PersistenceError] and returns nothing: the model was called, the
    persister was called once with the model's answer, and no turn is
    stored. *)
Theorem X6_sync_storage_failure self question w resp :
  llm_answer env (build_llm env self) question (chat_history_at env self w)
  = Ok resp ->
  (metadata resp <> None ->
   get_model env (model_name (model_to_use self)) <> None) ->
  (forall h c, storage_fails env h c = true) ->
  exists c w',
    generate_answer generate_uuid_from_string env self question w
    = (Raise PersistenceError, w') /\
    cch_assistant c = answer resp /\
    cch_user_message c = question /\
    new_events w w' = [EvModelCall question; EvPersist c] /\
    history w' = history w.
Proof.
  intros L Hm Hs.
  destruct (generate_answer_outcomes self question w)
    as [(e & L' & _)|[(r & L' & M & G & _)|[(r & L' & _ & E)
       |(r & t & out & w' & _ & F & _)]]]; cbv zeta in *.
  - congruence.
  - rewrite L in L'; inversion L'; subst. exfalso. exact (Hm M G).
  - rewrite L in L'; inversion L'; subst.
    exists (CreateChatHistory_of self question (answer r)
              (sync_metadata generate_uuid_from_string env self r)).
    eexists. split; [exact E|].
    split; [reflexivity|]. split; [reflexivity|].
    split; [apply new_events_app|]; reflexivity.
  - rewrite Hs in F. discriminate.
Qed.

Lemma yield_events_filter_model mm cs :
  filter is_model_call (yield_events mm cs) = [].
Proof. induction cs as [|c cs IH]; simpl; auto. Qed.

Lemma final_turn_of_stream self question mmd mm fa resp w0 y g w1 :
  finalize generate_uuid_from_string env self question mmd mm fa resp w0
  = (Ok (y, g), w1) ->
  exists r md t,
    resp = Some r /\ mmd = Some md /\
    y = Data (final_record generate_uuid_from_string self md mm fa r) /\
    history w1 = (history w0 ++ [t])%list /\
    log w1 = (log w0 ++
              [EvPersist (CreateChatHistory_of self question fa
                            (Some (final_metadata generate_uuid_from_string
                                     self md r)));
               EvYield y])%list /\
    ch_chat_id t = svc_chat_id self /\
    ch_user_message t = question /\
    ch_assistant t = fa /\
    ch_metadata t = ModelDump (final_metadata generate_uuid_from_string self md r).
Proof.
  intros F. apply finalize_inv in F.
  destruct F as (r & md & t & -> & -> & _ & -> & (_ & H & L) & S1 & S2 & S3 & S4).
  exists r, md, t. auto 10.
Qed.

(** X7. The stream on any provider sequence that ends normally, wherever
    the terminal flag is set (at the end, in the middle, several times or
    never).  With a model description and an accepting storage, the drained
    generator has emitted one record for each chunk without the flag, in
    order, then one final record; it has stored one turn whose text is the
    buffer the loop accumulated and whose metadata is built from the last
    chunk received. *)
Theorem X7_stream_on_any_flags self question w cs md fuel :
  provider_stream env self question w = chunks_then cs Stop ->
  cs <> [] ->
  get_model env (model_name (model_to_use self)) = Some md ->
  (forall h c, storage_fails env h c = false) ->
  length (emitted cs) + 2 <= fuel ->
  let mm := message_metadata_at env self question w in
  exists r t w',
    last_response None cs = Some r /\
    drain generate_uuid_from_string env self fuel
          (generate_answer_stream self question) w
    = Some ((partial_lines mm (emitted cs)
               ++ [Data (final_record generate_uuid_from_string self md mm
                           (accumulate "" cs) r)])%list,
            Ok tt, w') /\
    history w' = (history w ++ [t])%list /\
    ch_assistant t = accumulate "" cs /\
    ch_metadata t = ModelDump (final_metadata generate_uuid_from_string self md r).
Proof.
  intros Hs Hne Hm Hst Hf mm.
  destruct cs as [|c cs]; [congruence|].
  destruct (last_response_nonempty None c cs) as (r & Hr & _).
  rewrite (stream_run_stop generate_uuid_from_string env self question w (c :: cs) fuel Hs Hf), Hm, Hr.
  fold mm.
  destruct (finalize_ok generate_uuid_from_string env self question md mm
              (accumulate "" (c :: cs)) r
              (log_append (after_prologue question w)
                          (yield_events mm (emitted (c :: cs))))
              (Hst _ _)) as (y & w' & F).
  rewrite F. apply final_turn_of_stream in F.
  destruct F as (r' & md' & t & Er & Em & -> & H & _ & _ & _ & Ha & Hmd).
  inversion Er; inversion Em; subst r' md'.
  exists r, t, w'. split; [reflexivity|]. split; [reflexivity|].
  split; [exact H|]. split; [exact Ha | exact Hmd].
Qed.

(** X8. Whenever a drained stream ends normally, the last record the
    consumer received describes the turn that was stored: same chat id,
    question, answer text and metadata. *)
Theorem X8_final_record_is_stored_turn self question w fuel ys w' :
  drain generate_uuid_from_string env self fuel
        (generate_answer_stream self question) w = Some (ys, Ok tt, w') ->
  exists y t,
    last_record ys = Some y /\
    history w' = (history w ++ [t])%list /\
    chat_id (sse_record y) = ch_chat_id t /\
    user_message (sse_record y) = ch_user_message t /\
    assistant (sse_record y) = ch_assistant t /\
    out_metadata (sse_record y) = ch_metadata t.
Proof.
  intros D.
  pose proof (drain_mono generate_uuid_from_string env self _ _ _ _ D
                (fuel + (stream_length (provider_stream env self question w) + 2))
                ltac:(lia)) as D'.
  destruct (stream_decompose (provider_stream env self question w))
    as (cs & [Hs|(e & Hs)]).
  - pose proof (emitted_length_le cs) as Hl.
    rewrite (stream_run_stop generate_uuid_from_string env self question w cs _ Hs) in D'
      by (rewrite Hs, stream_length_chunks_then; simpl; lia).
    destruct (finalize _ _ _ _ _ _ _ _ _) as [[[y g]|e] w1] eqn:F;
      [|discriminate].
    inversion D'; subst; clear D'.
    apply final_turn_of_stream in F.
    destruct F as (r & md & t & _ & _ & -> & H & _ & Hc & Hq & Ha & Hmd).
    eexists; exists t. split; [apply last_record_snoc|].
    split; [exact H|]. simpl. rewrite Hc, Hq, Ha, Hmd. auto.
  - pose proof (emitted_length_le cs) as Hl.
    rewrite (stream_run_raise generate_uuid_from_string env self question w cs e _ Hs) in D'
      by (rewrite Hs, stream_length_chunks_then; simpl; lia).
    discriminate.
Qed.

(** X9. A provider that never sets the terminal flag.  When every chunk of a
    non-empty sequence is non-terminal, a description of the model exists and
    the storage accepts the turn, the stream is still finalised when the
    sequence ends: every chunk was answered with its record, then the final
    record is emitted and one turn is stored, whose text is the concatenation
    of all chunk texts. *)
Theorem X9_stream_without_terminal_flag self question w cs md fuel :
  provider_stream env self question w = chunks_then cs Stop ->
  cs <> [] ->
  Forall non_terminal cs ->
  get_model env (model_name (model_to_use self)) = Some md ->
  (forall h c, storage_fails env h c = false) ->
  length cs + 2 <= fuel ->
  let mm := message_metadata_at env self question w in
  exists r t w',
    drain generate_uuid_from_string env self fuel
          (generate_answer_stream self question) w
    = Some ((partial_lines mm cs
               ++ [Data (final_record generate_uuid_from_string self md mm
                           (buffer cs) r)])%list,
            Ok tt, w') /\
    history w' = (history w ++ [t])%list /\
    ch_assistant t = buffer cs.
Proof.
  intros Hs Hne Hnt Hm Hst Hf mm.
  destruct cs as [|c cs]; [congruence|].
  destruct (last_response_nonempty None c cs) as (r & Hr & _).
  assert (Hf' : length (emitted (c :: cs)) + 2 <= fuel)
    by (rewrite (emitted_non_terminal _ Hnt); exact Hf).
  rewrite (stream_run_stop generate_uuid_from_string env self question w (c :: cs) fuel Hs Hf'), Hm, Hr.
  fold mm.
  rewrite (emitted_non_terminal _ Hnt), (accumulate_non_terminal _ Hnt).
  cbn [append].
  destruct (finalize_ok generate_uuid_from_string env self question md mm
              (buffer (c :: cs)) r
              (log_append (after_prologue question w)
                          (yield_events mm (c :: cs)))
              (Hst _ _)) as (y & w' & F).
  rewrite F. apply final_turn_of_stream in F.
  destruct F as (r' & md' & t & Er & Em & -> & H & _ & _ & _ & Ha & _).
  inversion Er; inversion Em; subst r' md'.
  exists r, t, w'. split; [reflexivity|]. split; [exact H | exact Ha].
Qed.

(** X10. A provider failure in mid-stream does not retract what was
    delivered.  When the provider raises after the chunks [cs], the consumer
    has received exactly the records of the chunks of [cs] without the
    terminal flag, then the provider's exception; besides asking the provider
    and emitting these records, nothing happened, and no turn is stored. *)
Theorem X10_provider_failure_keeps_delivered_records
        self question w cs e fuel :
  provider_stream env self question w = chunks_then cs (Fail e) ->
  length (emitted cs) + 1 <= fuel ->
  let mm := message_metadata_at env self question w in
  exists w',
    drain generate_uuid_from_string env self fuel
          (generate_answer_stream self question) w
    = Some (partial_lines mm (emitted cs), Raise e, w') /\
    history w' = history w /\
    new_events w w' = EvModelCall question :: yield_events mm (emitted cs).
Proof.
  intros Hs Hf mm.
  rewrite (stream_run_raise generate_uuid_from_string env self question w cs e fuel Hs Hf).
  eexists; split; [reflexivity|]. split; [reflexivity|].
  apply (appended_new_events _ _ _ _ (appended_stream_prefix question w mm _)).
Qed.

(** X11. When the storage refuses the turn, the final record is never
    delivered: the consumer receives the records of the non-terminal chunks
    and then [PersistenceError]; the persister was called once, after the
    last of these records, and no turn is stored. *)
Theorem X11_stream_storage_failure self question w cs md fuel :
  provider_stream env self question w = chunks_then cs Stop ->
  cs <> [] ->
  get_model env (model_name (model_to_use self)) = Some md ->
  (forall h c, storage_fails env h c = true) ->
  length (emitted cs) + 2 <= fuel ->
  let mm := message_metadata_at env self question w in
  exists r w',
    last_response None cs = Some r /\
    drain generate_uuid_from_string env self fuel
          (generate_answer_stream self question) w
    = Some (partial_lines mm (emitted cs), Raise PersistenceError, w') /\
    history w' = history w /\
    new_events w w'
    = (EvModelCall question :: yield_events mm (emitted cs)
         ++ [EvPersist (CreateChatHistory_of self question (accumulate "" cs)
                          (Some (final_metadata generate_uuid_from_string
                                   self md r)))])%list.
Proof.
  intros Hs Hne Hm Hst Hf mm.
  destruct cs as [|c cs]; [congruence|].
  destruct (last_response_nonempty None c cs) as (r & Hr & _).
  rewrite (stream_run_stop generate_uuid_from_string env self question w (c :: cs) fuel Hs Hf), Hm, Hr.
  fold mm.
  rewrite (finalize_storage_down generate_uuid_from_string env self question
             md mm _ r _ (Hst _ _)).
  exists r; eexists. split; [reflexivity|]. split; [reflexivity|].
  split; [reflexivity|].
  apply (appended_new_events _ _ [] _).
  apply (appended_trans _ _ _ _ _ _ _
           (appended_stream_prefix question w mm _) (appended_log_append _ _)).
Qed.


(** X13. All records of one stream carry the same identity: whatever the
    provider sends, every record a drained generator emitted, partial or
    final, has the instance's chat id, the one message id and the one
    timestamp drawn before the loop, the caller's question, and [None] for
    the title and brain fields. *)
Theorem X13_records_share_stream_identity self question w fuel :
  stream_length (provider_stream env self question w) + 2 <= fuel ->
  exists ys r w',
    drain generate_uuid_from_string env self fuel
          (generate_answer_stream self question) w = Some (ys, r, w') /\
    Forall (fun y =>
              chat_id (sse_record y) = svc_chat_id self /\
              message_id (sse_record y) = uuid_source env (rng w) /\
              user_message (sse_record y) = question /\
              message_time (sse_record y) = clock w /\
              prompt_title (sse_record y) = None /\
              brain_name (sse_record y) = None /\
              brain_id (sse_record y) = None) ys.
Proof.
  intros Hf.
  assert (P : forall cs,
             Forall (fun y =>
                       chat_id (sse_record y) = svc_chat_id self /\
                       message_id (sse_record y) = uuid_source env (rng w) /\
                       user_message (sse_record y) = question /\
                       message_time (sse_record y) = clock w /\
                       prompt_title (sse_record y) = None /\
                       brain_name (sse_record y) = None /\
                       brain_id (sse_record y) = None)
                    (partial_lines (message_metadata_at env self question w) cs)).
  { induction cs as [|c cs IH]; constructor; [simpl; auto 10 | exact IH]. }
  destruct (stream_decompose (provider_stream env self question w))
    as (cs & [Hs|(e & Hs)]);
    pose proof (emitted_length_le cs) as Hl;
    rewrite Hs, stream_length_chunks_then in Hf; simpl in Hf.
  - rewrite (stream_run_stop generate_uuid_from_string env self question w cs
               fuel Hs) by lia.
    destruct (finalize _ _ _ _ _ _ _ _ _) as [[[y g]|e] w1] eqn:F.
    + apply final_turn_of_stream in F.
      destruct F as (r & md & t & _ & _ & -> & _).
      eexists; eexists; eexists. split; [reflexivity|].
      apply Forall_app. split; [apply P|].
      constructor; [simpl; auto 10 | constructor].
    + eexists; eexists; eexists. split; [reflexivity | apply P].
  - rewrite (stream_run_raise generate_uuid_from_string env self question w cs
               e fuel Hs) by lia.
    eexists; eexists; eexists. split; [reflexivity | apply P].
Qed.

(** X14. A stream asks the provider exactly once, before anything else:
    whatever the provider sends and however the run ends, the events of a
    drained generator begin with the one model call. *)
Theorem X14_stream_asks_provider_once self question w fuel :
  stream_length (provider_stream env self question w) + 2 <= fuel ->
  exists ys r w' rest,
    drain generate_uuid_from_string env self fuel
          (generate_answer_stream self question) w = Some (ys, r, w') /\
    new_events w w' = EvModelCall question :: rest /\
    filter is_model_call rest = [].
Proof.
  intros Hf.
  destruct (stream_decompose (provider_stream env self question w))
    as (cs & [Hs|(e & Hs)]);
    pose proof (emitted_length_le cs) as Hl;
    rewrite Hs, stream_length_chunks_then in Hf; simpl in Hf.
  - rewrite (stream_run_stop generate_uuid_from_string env self question w cs
               fuel Hs) by lia.
    destruct (finalize _ _ _ _ _ _ _ _ _) as [[[y g]|e] w1] eqn:F;
      apply finalize_inv in F.
    + destruct F as (r & md & t & _ & _ & _ & _ & A & _).
      pose proof (appended_trans _ _ _ _ _ _ _
                    (appended_stream_prefix question w _ _) A) as B.
      eexists; eexists; eexists; eexists. split; [reflexivity|].
      rewrite (appended_new_events _ _ _ _ B). simpl.
      split; [reflexivity|].
      rewrite filter_app, yield_events_filter_model. reflexivity.
    + destruct F as (evs & A & Hev).
      pose proof (appended_trans _ _ _ _ _ _ _
                    (appended_stream_prefix question w _ _) A) as B.
      eexists; eexists; eexists; eexists. split; [reflexivity|].
      rewrite (appended_new_events _ _ _ _ B). simpl.
      split; [reflexivity|].
      rewrite filter_app, yield_events_filter_model.
      destruct Hev as [->|(c & ->)]; reflexivity.
  - rewrite (stream_run_raise generate_uuid_from_string env self question w cs
               e fuel Hs) by lia.
    eexists; eexists; eexists; eexists. split; [reflexivity|].
    rewrite (appended_new_events _ _ _ _
               (appended_stream_prefix question w _ _)).
    split; [reflexivity | apply yield_events_filter_model].
Qed.

End Extras.

(** ** The further properties on the scenarios *)

Import Edge.

Lemma X2_witness :
  exists out w',
    generate_answer uuid_of_name env_metadata service question empty_world
    = (Ok out, w') /\
    exists t,
      history w' = [t] /\
      message_id out = ch_message_id t /\
      assistant out = ch_assistant t /\
      out_metadata out = ch_metadata t.
Proof.
  eexists; eexists; split; [vm_compute; reflexivity|].
  destruct (X2_sync_return_matches_stored_turn uuid_of_name env_metadata
              service question empty_world _ _ eq_refl)
    as (t & H & _ & Hi & _ & Ha & _ & Hm & _).
  exists t. split; [exact H|]. split; [exact Hi|]. split; [exact Ha | exact Hm].
Defined.

Lemma X5_witness :
  generate_answer uuid_of_name (without_descriptions env_metadata) service
                  question empty_world
  = (Raise AttributeError, log_append empty_world [EvModelCall question]) /\
  exists out w' t,
    generate_answer uuid_of_name (without_descriptions env_plain) service
                    question empty_world = (Ok out, w') /\
    history w' = [t] /\ ch_metadata t = EmptyDict.
Proof.
  split.
  - exact (X5_sync_missing_description uuid_of_name
             (without_descriptions env_metadata) service question empty_world
             answer_with_metadata eq_refl eq_refl).
  - destruct (X5_sync_missing_description uuid_of_name
                (without_descriptions env_plain) service question empty_world
                plain_answer eq_refl eq_refl eq_refl)
      as (out & w' & t & E & H & _ & Hm & _).
    exists out, w', t. split; [exact E|]. split; [exact H | exact Hm].
Defined.

Lemma X6_witness :
  exists c w',
    generate_answer uuid_of_name (with_storage_down env_metadata) service
                    question empty_world = (Raise PersistenceError, w') /\
    cch_assistant c = "4" /\
    new_events empty_world w' = [EvModelCall question; EvPersist c] /\
    history w' = [].
Proof.
  destruct (X6_sync_storage_failure uuid_of_name
              (with_storage_down env_metadata) service question empty_world
              answer_with_metadata eq_refl
              (fun _ (H : Some model_x = None) => eq_ind (Some model_x)
                 (fun o => match o with Some _ => True | None => False end)
                 I None H)
              (fun _ _ => eq_refl))
    as (c & w' & E & Ha & _ & Hev & H).
  exists c, w'. split; [exact E|]. split; [exact Ha|]. split; [exact Hev | exact H].
Defined.

Lemma X7_witness :
  exists ys w' t,
    drain uuid_of_name env_flag_in_middle service 4
          (generate_answer_stream service question) empty_world
    = Some (ys, Ok tt, w') /\
    map (fun y => assistant (sse_record y)) ys = ["a"; "b"; "ab"] /\
    history w' = [t] /\
    ch_assistant t = "ab".
Proof.
  destruct (X7_stream_on_any_flags uuid_of_name env_flag_in_middle service
              question empty_world
              [chunk "a" false; chunk "x" true; chunk "b" false] model_x 4
              eq_refl
              (fun H : [chunk "a" false; chunk "x" true; chunk "b" false] = [] =>
                 eq_ind [chunk "a" false; chunk "x" true; chunk "b" false]
                   (fun l => match l with [] => False | _ :: _ => True end)
                   I [] H)
              eq_refl (fun _ _ => eq_refl) (le_n 4))
    as (r & t & w' & _ & D & H & Ha & _).
  eexists; exists w', t. split; [exact D|]. split; [reflexivity|].
  split; [exact H | exact Ha].
Defined.

Lemma X8_witness :
  exists ys w',
    drain uuid_of_name env_stream service 5
          (generate_answer_stream service question) empty_world
    = Some (ys, Ok tt, w') /\
    exists y t,
      last_record ys = Some y /\
      history w' = [t] /\
      assistant (sse_record y) = ch_assistant t /\
      out_metadata (sse_record y) = ch_metadata t.
Proof.
  eexists; eexists; split; [vm_compute; reflexivity|].
  destruct (X8_final_record_is_stored_turn uuid_of_name env_stream service
              question empty_world 5 _ _ eq_refl)
    as (y & t & L & H & _ & _ & Ha & Hm).
  exists y, t. split; [exact L|]. split; [exact H|]. split; [exact Ha | exact Hm].
Defined.

Lemma X9_witness :
  Forall non_terminal [chunk "a" false; chunk "b" false] /\
  exists ys w' t,
    drain uuid_of_name env_no_terminal service 4
          (generate_answer_stream service question) empty_world
    = Some (ys, Ok tt, w') /\
    map (fun y => assistant (sse_record y)) ys = ["a"; "b"; "ab"] /\
    history w' = [t] /\
    ch_assistant t = "ab".
Proof.
  assert (Hnt : Forall non_terminal [chunk "a" false; chunk "b" false])
    by (repeat constructor).
  split; [exact Hnt|].
  destruct (X9_stream_without_terminal_flag uuid_of_name env_no_terminal
              service question empty_world
              [chunk "a" false; chunk "b" false] model_x 4
              eq_refl
              (fun H : [chunk "a" false; chunk "b" false] = [] =>
                 eq_ind [chunk "a" false; chunk "b" false]
                   (fun l => match l with [] => False | _ :: _ => True end)
                   I [] H)
              Hnt eq_refl (fun _ _ => eq_refl) (le_n 4))
    as (r & t & w' & D & H & Ha).
  eexists; exists w', t. split; [exact D|]. split; [reflexivity|].
  split; [exact H | exact Ha].
Defined.

Lemma X10_witness :
  exists w',
    drain uuid_of_name env_failing service 2
          (generate_answer_stream service question) empty_world
    = Some (partial_lines first_metadata [chunk "a" false],
            Raise InvocationError, w') /\
    history w' = [] /\
    new_events empty_world w'
    = EvModelCall question :: yield_events first_metadata [chunk "a" false].
Proof.
  exact (X10_provider_failure_keeps_delivered_records uuid_of_name env_failing
           service question empty_world [chunk "a" false] InvocationError 2
           eq_refl (le_n 2)).
Defined.

Lemma X11_witness :
  exists r w',
    last_response None [chunk "a" false; chunk "b" false; chunk "" true]
    = Some r /\
    drain uuid_of_name (with_storage_down env_stream) service 4
          (generate_answer_stream service question) empty_world
    = Some (partial_lines first_metadata [chunk "a" false; chunk "b" false],
            Raise PersistenceError, w') /\
    history w' = [].
Proof.
  destruct (X11_stream_storage_failure uuid_of_name
              (with_storage_down env_stream) service question empty_world
              [chunk "a" false; chunk "b" false; chunk "" true] model_x 4
              eq_refl
              (fun H : [chunk "a" false; chunk "b" false; chunk "" true] = [] =>
                 eq_ind [chunk "a" false; chunk "b" false; chunk "" true]
                   (fun l => match l with [] => False | _ :: _ => True end)
                   I [] H)
              eq_refl (fun _ _ => eq_refl) (le_n 4))
    as (r & w' & Hr & D & H & _).
  exists r, w'. split; [exact Hr|]. split; [exact D | exact H].
Defined.


Lemma X13_witness :
  exists ys r w',
    drain uuid_of_name env_stream service 5
          (generate_answer_stream service question) empty_world
    = Some (ys, r, w') /\
    length ys = 3 /\
    Forall (fun y => message_id (sse_record y) = "turn-id" /\
                     message_time (sse_record y) = 0) ys.
Proof.
  destruct (X13_records_share_stream_identity uuid_of_name env_stream service
              question empty_world 5 (le_n 5)) as (ys & r & w' & D & F).
  exists ys, r, w'. split; [exact D|].
  split; [vm_compute in D; inversion D; reflexivity|].
  apply (Forall_impl _ (fun y (H : _) =>
           conj (proj1 (proj2 H)) (proj1 (proj2 (proj2 (proj2 H))))) F).
Defined.

Lemma X14_witness :
  exists ys r w' rest,
    drain uuid_of_name env_stream service 5
          (generate_answer_stream service question) empty_world
    = Some (ys, r, w') /\
    new_events empty_world w' = EvModelCall question :: rest /\
    filter is_model_call rest = [].
Proof.
  exact (X14_stream_asks_provider_once uuid_of_name env_stream service question
           empty_world 5 (le_n 5)).
Defined.
